(** * skeditor: the layer scene graph ([lib/editor/view/layer-view.ts])

  A shallow embedding of [SkyBaseLayerView]: the instance-scaling resolver
  ([calcInstanceChildScale], [calcOffsetAfterScale], [commonLayoutSelf]),
  [updateTransform], the render driver with its mask chain, and hit-testing.

  JavaScript numbers are IEEE 754 binary64 values, so they are embedded as
  Rocq's primitive floats: [+], [-], [*], [/] are the rounding operations of
  the language, [x !== y] is [negb (x =? y)], [a > b] is [b <? a]. *)

From Stdlib Require Import List Bool String ZArith Lia Floats.
Import ListNotations.

Set Warnings "-register-all".

Local Open Scope float_scope.

(** ** Geometric records of [../base] (only their fields are used here) *)

Module Point.
Record t : Set := mk { x : float; y : float }.
(** [Point.set(x, y)] overwrites both coordinates. *)
Definition set (_ : t) (nx ny : float) : t := mk nx ny.
(** [p.minus(q)], componentwise. *)
Definition minus (p q : t) : t := mk (x p - x q) (y p - y q).
End Point.

Module Rect.
Record t : Set := mk { x : float; y : float; width : float; height : float }.
End Rect.

(** ** The document-layer record consumed by the view ([SkyBaseLayer]) *)

Definition SkColor : Set := (float * float * float * float)%type.

Inductive BlendMode : Set :=
  | Clear | Src | Dst | SrcOver | DstOver | SrcIn | DstIn | SrcOut | DstOut
  | SrcATop | DstATop | Xor | Plus | Modulate | Screen | Overlay | Darken
  | Lighten | ColorDodge | ColorBurn | HardLight | SoftLight | Difference
  | Exclusion | Multiply | Hue | Saturation | Color | Luminosity.

Definition BlendMode_eqb (a b : BlendMode) : bool :=
  match a, b with
  | Clear, Clear | Src, Src | Dst, Dst | SrcOver, SrcOver | DstOver, DstOver
  | SrcIn, SrcIn | DstIn, DstIn | SrcOut, SrcOut | DstOut, DstOut
  | SrcATop, SrcATop | DstATop, DstATop | Xor, Xor | Plus, Plus
  | Modulate, Modulate | Screen, Screen | Overlay, Overlay | Darken, Darken
  | Lighten, Lighten | ColorDodge, ColorDodge | ColorBurn, ColorBurn
  | HardLight, HardLight | SoftLight, SoftLight | Difference, Difference
  | Exclusion, Exclusion | Multiply, Multiply | Hue, Hue
  | Saturation, Saturation | Color, Color | Luminosity, Luminosity => true
  | _, _ => false
  end.

Inductive SkyBlurType : Set := Gaussian | Motion | Zoom | Background.

Record SkyGraphicsContextSettings : Set := mkContextSettings {
  opacity : float;
  blendMode : BlendMode
}.

Record SkyShadow : Set := mkShadow {
  shadowIsEnabled : bool;
  color : SkColor;
  blurRadius : float;
  offsetX : float;
  offsetY : float
}.

Record SkyBlur : Set := mkBlur {
  blurIsEnabled : bool;
  blurType : SkyBlurType;
  radius : float;
  motionAngle : float
}.

Record SkyStyle : Set := mkStyle {
  contextSettings : option SkyGraphicsContextSettings;
  shadows : option (list SkyShadow);
  blur : option SkyBlur
}.

Module SkyBaseLayer.
Record t : Set := mk {
  objectId : string;
  frame : Rect.t;
  rotation : float;
  isFlippedHorizontal : bool;
  isFlippedVertical : bool;
  isVisible : bool;
  isLocked : bool;
  hasClippingMask : bool;
  shouldBreakMaskChain : bool;
  fixedWidth : bool;
  fixedHeight : bool;
  snapLeft : bool;
  snapRight : bool;
  snapTop : bool;
  snapBottom : bool;
  style : option SkyStyle
}.
End SkyBaseLayer.

(** ** Paint objects of the drawing backend, as far as [buildLayerPaint]
  configures them *)

Inductive SkImageFilter : Set :=
  | MakeDropShadow (dx dy sigmaX sigmaY : float) (c : SkColor)
  | MakeBlur (sigmaX sigmaY : float).

Record SkPaint : Set := mkPaint {
  alphaf : option float;
  paintBlendMode : option BlendMode;
  imageFilter : option SkImageFilter
}.

(** [layerPaint: SkPaint | null | undefined]: [undefined] is "not built yet",
  [null] is "no paint needed". *)
Inductive LayerPaint : Set :=
  | PaintUndefined
  | PaintNull
  | PaintSome (p : SkPaint).

(** Truthiness of [this.layerPaint] in a condition. *)
Definition truthy (lp : LayerPaint) : bool :=
  match lp with PaintSome _ => true | _ => false end.

(** ** Layer classes of the document model ([ClassValue]) *)

Module ClassValue.
Inductive t : Set :=
  | Group | ShapeGroup | ShapeLike | Bitmap | Text
  | SymbolInstance | SymbolMaster | Artboard
  | Other (tag : string).
End ClassValue.

(** ** The zoom controller ([ZoomController])

    The controller turns wheel, drag and pinch events into calls of its
    [IZoomListener]; each handler is embedded as a function from the event
    (and the handler's memory) to the calls it makes. *)

Module ZoomController.

Record WheelEvent : Set := mkWheelEvent {
  deltaMode : Z;
  deltaX : float;
  deltaY : float;
  offsetX : float;
  offsetY : float;
  ctrlKey : bool;
  metaKey : bool;
  shiftKey : bool
}.

(** The two methods of [IZoomListener]. *)
Inductive ServiceCall : Set :=
  | onScale (scaleMultiply : float) (center : Point.t)
  | onOffset (delta : Point.t).

(** [Math.min] and [Math.max] of the language on two numbers: [NaN] if
    either is [NaN], and [-0] counts as smaller than [+0]. *)
Definition Math_min (a b : float) : float :=
  if is_nan a || is_nan b then nan
  else if a <? b then a
  else if b <? a then b
  else if get_sign a then a else b.

Definition Math_max (a b : float) : float :=
  if is_nan a || is_nan b then nan
  else if a <? b then b
  else if b <? a then a
  else if get_sign a then b else a.

Definition getScaleDelta (e : WheelEvent) : float :=
  if (deltaMode e =? 1)%Z then deltaY e * 15
  else if (deltaY e <? 20) && (-20 <? deltaY e) then deltaY e
  else Math_max (Math_min (deltaY e) 20) (-20).



(** The events of [fromDragEvent] that the handler distinguishes. *)
Inductive DragEvent : Set :=
  | dragStart
  | dragging (dx dy : float)
  | dragEnd.

(** The subscriber of [bindDragEvents]: [pre] is [(preDx, preDy)]. *)
Definition onDrag (pre : float * float) (event : DragEvent)
    : (float * float) * list ServiceCall :=
  match event with
  | dragStart => ((0, 0), [])
  | dragging dx dy =>
    let offset := Point.mk (fst pre - dx) (snd pre - dy) in
    ((dx, dy), [onOffset offset])
  | dragEnd => (pre, [])
  end.

Fixpoint runDrag (pre : float * float) (events : list DragEvent)
    : (float * float) * list ServiceCall :=
  match events with
  | [] => (pre, [])
  | event :: rest =>
    let '(pre1, calls) := onDrag pre event in
    let '(pre2, calls1) := runDrag pre1 rest in
    (pre2, calls ++ calls1)
  end.

(** The Safari gesture events, with the fields [onGesture] reads. *)
Inductive GestureEvent : Set :=
  | gesturestart (layerX layerY : float)
  | gesturechange (scale : float)
  | gestureend.

(** [onGesture] of [bindGesture]: its memory is [(startPoint, lastScale)]. *)
Definition onGesture (offset : Point.t) (st : Point.t * float)
    (e : GestureEvent) : (Point.t * float) * list ServiceCall :=
  match e with
  | gesturestart layerX layerY => ((Point.mk layerX layerY, 1), [])
  | gesturechange gestureScale =>
    let scaleMultiply := gestureScale / snd st in
    ((fst st, gestureScale),
     [onScale scaleMultiply (Point.minus (fst st) offset)])
  | gestureend => (st, [])
  end.

Fixpoint runGesture (offset : Point.t) (st : Point.t * float)
    (events : list GestureEvent) : (Point.t * float) * list ServiceCall :=
  match events with
  | [] => (st, [])
  | e :: rest =>
    let '(st1, calls) := onGesture offset st e in
    let '(st2, calls1) := runGesture offset st1 rest in
    (st2, calls ++ calls1)
  end.




End ZoomController.

Section LayerView.

(** The affine matrix of [../base] and of the backend is opaque here. *)
Context {Matrix : Type}.

Record Transform : Type := mkTransform {
  pivot : Point.t;
  position : Point.t;
  scale : Point.t;
  rotation : float;
  localTransform : Matrix;
  worldTransform : Matrix
}.

(** One node of the scene graph.  [parent] is a back-reference in the
    source; the functions that read it take the parent as an argument. *)
Inductive SkyBaseLayerView : Type := mkView {
  model : SkyBaseLayer.t;
  children : list SkyBaseLayerView;
  transform : Transform;
  scaledFrame : option Rect.t;
  layerPaint : LayerPaint;
  requireLayerDropShadow : bool;
  canQuickReject : bool
}.

Definition set_scaledFrame (v : SkyBaseLayerView) (f : option Rect.t) :=
  mkView (model v) (children v) (transform v) f (layerPaint v)
         (requireLayerDropShadow v) (canQuickReject v).

Definition set_transform (v : SkyBaseLayerView) (t : Transform) :=
  mkView (model v) (children v) t (scaledFrame v) (layerPaint v)
         (requireLayerDropShadow v) (canQuickReject v).

Definition set_layerPaint (v : SkyBaseLayerView) (lp : LayerPaint) :=
  mkView (model v) (children v) (transform v) (scaledFrame v) lp
         (requireLayerDropShadow v) (canQuickReject v).

Definition set_children (v : SkyBaseLayerView) (cs : list SkyBaseLayerView) :=
  mkView (model v) cs (transform v) (scaledFrame v) (layerPaint v)
         (requireLayerDropShadow v) (canQuickReject v).

(** *** Getters *)

Definition visible (v : SkyBaseLayerView) : bool :=
  SkyBaseLayer.isVisible (model v).

Definition interactive (v : SkyBaseLayerView) : bool :=
  visible v && negb (SkyBaseLayer.isLocked (model v)).

Definition isMask (v : SkyBaseLayerView) : bool :=
  SkyBaseLayer.hasClippingMask (model v).

Definition shouldBreakMaskChain (v : SkyBaseLayerView) : bool :=
  SkyBaseLayer.shouldBreakMaskChain (model v).

Definition intrinsicFrame (v : SkyBaseLayerView) : Rect.t :=
  SkyBaseLayer.frame (model v).

(** [this.scaledFrame || this.model.frame]: a [Rect] object is truthy. *)
Definition frame (v : SkyBaseLayerView) : Rect.t :=
  match scaledFrame v with
  | Some f => f
  | None => SkyBaseLayer.frame (model v)
  end.

Definition isFrameScaled (v : SkyBaseLayerView) : bool :=
  negb (Rect.width (intrinsicFrame v) =? Rect.width (frame v))
  || negb (Rect.height (intrinsicFrame v) =? Rect.height (frame v)).

(** *** Instance scaling *)

Record ScaleInfo : Set := mkScaleInfo { scaleX : float; scaleY : float }.
Record OffsetInfo : Set := mkOffsetInfo { newX : float; newY : float }.

Definition calcInstanceChildScale
    (parent : option SkyBaseLayerView) (this : SkyBaseLayerView)
    : option ScaleInfo :=
  match parent with
  | None => None
  | Some parent =>
    if negb (isFrameScaled parent) then None else
    let instanceFrame := frame parent in
    let masterFrame := intrinsicFrame parent in
    let instanceScaleX := Rect.width instanceFrame / Rect.width masterFrame in
    let instanceScaleY := Rect.height instanceFrame / Rect.height masterFrame in
    let scaleX0 := if SkyBaseLayer.fixedWidth (model this) then 1 else instanceScaleX in
    let scaleY0 := if SkyBaseLayer.fixedHeight (model this) then 1 else instanceScaleY in
    let curFrame := frame this in
    let scaleX1 :=
      if SkyBaseLayer.snapLeft (model this) && SkyBaseLayer.snapRight (model this) then
        let rightLefMargin := Rect.width masterFrame - Rect.width curFrame in
        let newWidth := Rect.width instanceFrame - rightLefMargin in
        newWidth / Rect.width curFrame
      else if SkyBaseLayer.snapRight (model this) then
        let oldRight := Rect.width masterFrame - Rect.width curFrame - Rect.x curFrame in
        if negb (SkyBaseLayer.fixedWidth (model this)) then
          (Rect.width masterFrame * instanceScaleX - oldRight)
          / (Rect.width masterFrame - oldRight)
        else scaleX0
      else if SkyBaseLayer.snapLeft (model this) then
        if negb (SkyBaseLayer.fixedWidth (model this)) then
          (Rect.width masterFrame * instanceScaleX - Rect.x curFrame)
          / (Rect.width masterFrame - Rect.x curFrame)
        else scaleX0
      else scaleX0 in
    let scaleY1 :=
      if SkyBaseLayer.snapTop (model this) && SkyBaseLayer.snapBottom (model this) then
        let verMargin := Rect.height masterFrame - Rect.height curFrame in
        let newHeight := Rect.height instanceFrame - verMargin in
        newHeight / Rect.height curFrame
      else if SkyBaseLayer.snapBottom (model this) then
        let oldBottom := Rect.height masterFrame - Rect.height curFrame - Rect.y curFrame in
        if negb (SkyBaseLayer.fixedHeight (model this)) then
          (Rect.height masterFrame * instanceScaleY - oldBottom)
          / (Rect.height masterFrame - oldBottom)
        else scaleY0
      else if SkyBaseLayer.snapTop (model this) then
        if negb (SkyBaseLayer.fixedHeight (model this)) then
          (Rect.height masterFrame * instanceScaleY - Rect.y curFrame)
          / (Rect.height masterFrame - Rect.y curFrame)
        else scaleY0
      else scaleY0 in
    Some (mkScaleInfo scaleX1 scaleY1)
  end.

(** [const parent = this.parent!]: reading [parent.frame] of an absent
    parent throws, which is the [None] result. *)
Definition calcOffsetAfterScale
    (parent : option SkyBaseLayerView) (this : SkyBaseLayerView)
    (newBounds oldBounds : Rect.t) : option OffsetInfo :=
  match parent with
  | None => None
  | Some parent =>
    let instanceFrame := frame parent in
    let masterFrame := intrinsicFrame parent in
    let curFrame := oldBounds in
    let newX0 := Rect.x curFrame in
    let newY0 := Rect.y curFrame in
    let newX1 :=
      if SkyBaseLayer.snapLeft (model this) && SkyBaseLayer.snapRight (model this) then
        newX0
      else if SkyBaseLayer.snapRight (model this) then
        let oldRight := Rect.width masterFrame - Rect.width curFrame - Rect.x curFrame in
        let newLeft := Rect.width instanceFrame - Rect.width newBounds - oldRight in
        newLeft
      else if SkyBaseLayer.snapLeft (model this) then
        newX0
      else
        let oldCenter := Rect.x curFrame + Rect.width curFrame / 2 in
        let oldCenterRatio := oldCenter / Rect.width masterFrame in
        let newCenter := oldCenterRatio * Rect.width instanceFrame in
        let newLeft := newCenter - Rect.width newBounds / 2 in
        newLeft in
    let newY1 :=
      if SkyBaseLayer.snapTop (model this) && SkyBaseLayer.snapBottom (model this) then
        newY0
      else if SkyBaseLayer.snapBottom (model this) then
        let oldBottom := Rect.height masterFrame - Rect.height curFrame - Rect.y curFrame in
        let newTop := Rect.height instanceFrame - Rect.height newBounds - oldBottom in
        newTop
      else if SkyBaseLayer.snapTop (model this) then
        newY0
      else
        let oldCenter := Rect.y curFrame + Rect.height curFrame / 2 in
        let oldCenterRatio := oldCenter / Rect.height masterFrame in
        let newCenter := oldCenterRatio * Rect.height instanceFrame in
        let newTop := newCenter - Rect.height newBounds / 2 in
        newTop in
    Some (mkOffsetInfo newX1 newY1)
  end.

(** [commonLayoutSelf] first clears [scaledFrame], so the child's current
    frame seen by [calcInstanceChildScale] is its model frame.  The result is
    [None] only if the call of [calcOffsetAfterScale] throws. *)
Definition commonLayoutSelf
    (parent : option SkyBaseLayerView) (this : SkyBaseLayerView)
    : option SkyBaseLayerView :=
  let this0 := set_scaledFrame this None in
  match calcInstanceChildScale parent this0 with
  | None => Some this0
  | Some info =>
    let oldFrame := SkyBaseLayer.frame (model this0) in
    let newFrame :=
      Rect.mk 0 0 (scaleX info * Rect.width oldFrame)
                  (scaleY info * Rect.height oldFrame) in
    match calcOffsetAfterScale parent this0 newFrame oldFrame with
    | None => None
    | Some off =>
      Some (set_scaledFrame this0
              (Some (Rect.mk (newX off) (newY off)
                             (Rect.width newFrame) (Rect.height newFrame))))
    end
  end.

(** *** Local transform *)

(** Helpers of [../base] whose code is outside this file's source. *)
Variable degreeToRadian : float -> float.
Variable updateLocalTransform : Transform -> Transform.
Variable applyInverse : Matrix -> Point.t -> Point.t.

Definition updateTransform (this : SkyBaseLayerView) : SkyBaseLayerView :=
  let isFlippedHorizontal := SkyBaseLayer.isFlippedHorizontal (model this) in
  let isFlippedVertical := SkyBaseLayer.isFlippedVertical (model this) in
  let rotation := SkyBaseLayer.rotation (model this) in
  let frame := frame this in
  let t := transform this in
  let pivot1 := Point.set (pivot t) (Rect.width frame / 2) (Rect.height frame / 2) in
  let scaleX := if isFlippedHorizontal then -1 else 1 in
  let scaleY := if isFlippedVertical then -1 else 1 in
  let scale1 := Point.set (scale t) scaleX scaleY in
  let radian := -1 * scaleX * scaleY * degreeToRadian rotation in
  let position1 :=
    Point.set (position t) (Rect.x frame + Rect.width frame / 2)
                           (Rect.y frame + Rect.height frame / 2) in
  set_transform this
    (updateLocalTransform
       (mkTransform pivot1 position1 scale1 radian
                    (localTransform t) (worldTransform t))).

(** *** The drawing surface

    The backend canvas is a stack machine: [save] and [saveLayer] push the
    current matrix and clip, [restore] pops them back (and does nothing on an
    empty stack).  The clip is recorded as the list of the layers whose shape
    was intersected into it.  Two counters record how many acquiring and
    releasing calls were issued. *)

Record GState : Type := mkGState {
  ctm : Matrix;
  clip : list string
}.

Inductive Scope : Set :=
| ScopeSave
| ScopeSaveLayer (p : SkPaint).

Record SkCanvas : Type := mkCanvas {
  current : GState;
  saved : list (Scope * GState);
  saveCalls : nat;
  restoreCalls : nat
}.

Variable concatMatrix : Matrix -> Matrix -> Matrix.
Variable invertMatrix : Matrix -> Matrix.
Variable quickReject : SkCanvas -> Rect.t -> bool.

Definition save (c : SkCanvas) : SkCanvas :=
  mkCanvas (current c) ((ScopeSave, current c) :: saved c)
           (S (saveCalls c)) (restoreCalls c).

Definition saveLayer (p : SkPaint) (c : SkCanvas) : SkCanvas :=
  mkCanvas (current c) ((ScopeSaveLayer p, current c) :: saved c)
           (S (saveCalls c)) (restoreCalls c).

Definition restore (c : SkCanvas) : SkCanvas :=
  match saved c with
  | [] => mkCanvas (current c) [] (saveCalls c) (S (restoreCalls c))
  | (_, g) :: rest => mkCanvas g rest (saveCalls c) (S (restoreCalls c))
  end.

Definition concat (m : Matrix) (c : SkCanvas) : SkCanvas :=
  mkCanvas (mkGState (concatMatrix (ctm (current c)) m) (clip (current c)))
           (saved c) (saveCalls c) (restoreCalls c).

Definition clipPath (shape : string) (c : SkCanvas) : SkCanvas :=
  mkCanvas (mkGState (ctm (current c)) (clip (current c) ++ [shape]))
           (saved c) (saveCalls c) (restoreCalls c).

(** *** Layer paint *)

Definition buildLayerPaint (this : SkyBaseLayerView) : SkyBaseLayerView :=
  match SkyBaseLayer.style (model this) with
  | None => set_layerPaint this PaintNull
  | Some style =>
    let layerPaint0 := mkPaint None None None in
    let '(layerPaint1, modified1) :=
      match contextSettings style with
      | Some cs =>
        let '(lp, md) :=
          if negb (opacity cs =? 1)
          then (mkPaint (Some (opacity cs)) (paintBlendMode layerPaint0)
                        (imageFilter layerPaint0), true)
          else (layerPaint0, false) in
        if negb (BlendMode_eqb (blendMode cs) Src)
        then (mkPaint (alphaf lp) (Some (blendMode cs)) (imageFilter lp), true)
        else (lp, md)
      | None => (layerPaint0, false)
      end in
    let '(layerPaint2, modified2) :=
      match shadows style with
      | Some (sh :: _) =>
        if requireLayerDropShadow this && shadowIsEnabled sh
        then (mkPaint (alphaf layerPaint1) (paintBlendMode layerPaint1)
                (Some (MakeDropShadow (offsetX sh) (offsetY sh)
                         (blurRadius sh / 2) (blurRadius sh / 2) (color sh))),
              true)
        else (layerPaint1, modified1)
      | _ => (layerPaint1, modified1)
      end in
    let '(layerPaint3, modified3) :=
      match blur style with
      | Some b =>
        if blurIsEnabled b then
          match blurType b with
          | Gaussian =>
            (mkPaint (alphaf layerPaint2) (paintBlendMode layerPaint2)
                     (Some (MakeBlur (radius b) (radius b))), true)
          | Motion | Zoom | Background => (layerPaint2, modified2)
          end
        else (layerPaint2, modified2)
      | None => (layerPaint2, modified2)
      end in
    if modified3 then set_layerPaint this (PaintSome layerPaint3)
    else set_layerPaint this PaintNull
  end.

Definition applyLayerStyle (this : SkyBaseLayerView) (c : SkCanvas)
    : SkyBaseLayerView * SkCanvas :=
  let this1 :=
    match layerPaint this with
    | PaintUndefined => buildLayerPaint this
    | _ => this
    end in
  match layerPaint this1 with
  | PaintSome p => (this1, saveLayer p c)
  | _ => (this1, c)
  end.

(** *** Render *)

(** [model.inflateFrame] and [Rect.onlySize] live outside this file's source. *)
Variable inflateFrame : SkyBaseLayer.t -> Rect.t -> Rect.t.
Variable onlySize : Rect.t -> Rect.t.

(** The abstract [_render()] of the concrete view variants.  It runs on
    [this]: it draws on the surface and may change the view (a container's
    one renders the children and so fills their paint caches). *)
Variable _render :
  SkyBaseLayerView -> SkCanvas -> SkyBaseLayerView * SkCanvas.

Definition renderFrame (this : SkyBaseLayerView) : Rect.t :=
  inflateFrame (model this) (onlySize (frame this)).

Definition applyTransform (this : SkyBaseLayerView) (c : SkCanvas) : SkCanvas :=
  concat (localTransform (transform this)) c.

Definition shouldRenderOn (this : SkyBaseLayerView) (c2 : SkCanvas) : bool :=
  let reject := quickReject c2 (renderFrame this) in
  negb (canQuickReject this) || negb reject.

(** [render] up to and including the delegation to [_render]. *)
Definition renderBody (this : SkyBaseLayerView) (c : SkCanvas)
    : SkyBaseLayerView * SkCanvas * bool :=
  let c1 := save c in
  let c2 := applyTransform this c1 in
  let shouldRender := shouldRenderOn this c2 in
  if shouldRender then
    let '(this1, c3) := applyLayerStyle this c2 in
    let '(this2, c4) := _render this1 c3 in
    (this2, c4, shouldRender)
  else (this, c2, shouldRender).

Definition render (this : SkyBaseLayerView) (c : SkCanvas)
    : SkyBaseLayerView * SkCanvas :=
  let '(this1, c3, shouldRender) := renderBody this c in
  let c4 := restore c3 in
  let c5 := if truthy (layerPaint this1) && shouldRender then restore c4 else c4 in
  (this1, c5).

(** The [_tryClip()] that [this._tryClip()] dispatches to: the one of this
    class is empty ([_tryClip_base] below), the variants that can clip
    override it.  Like [_render] it runs on [this]. *)
Variable _tryClip :
  SkyBaseLayerView -> SkCanvas -> SkyBaseLayerView * SkCanvas.

(** [_tryClip() {}] as this class has it. *)
Definition _tryClip_base (this : SkyBaseLayerView) (c : SkCanvas)
    : SkyBaseLayerView * SkCanvas :=
  (this, c).

Definition tryClip (this : SkyBaseLayerView) (c : SkCanvas)
    : SkyBaseLayerView * SkCanvas :=
  if negb (isMask this) then (this, c) else
  let mat := localTransform (transform this) in
  let '(this1, c1) := _tryClip this (concat mat c) in
  (this1, concat (invertMatrix mat) c1).

(** One turn of the loop of [renderChildren], split at the point where the
    child's own [render] starts. *)
Definition closeMaskFor (childView : SkyBaseLayerView)
    (st : bool * SkCanvas) : bool * SkCanvas :=
  let '(isMasking, c) := st in
  if (isMask childView || shouldBreakMaskChain childView) && isMasking
  then (false, restore c)
  else (isMasking, c).

Definition renderChild (childView : SkyBaseLayerView)
    (st : bool * SkCanvas) : SkyBaseLayerView * (bool * SkCanvas) :=
  let '(isMasking, c) := st in
  let '(childView1, c1) :=
    if visible childView then render childView c else (childView, c) in
  if isMask childView1
  then
    let '(childView2, c2) := tryClip childView1 (save c1) in
    (childView2, (true, c2))
  else (childView1, (isMasking, c1)).

Fixpoint renderChildrenLoop (cs : list SkyBaseLayerView)
    (st : bool * SkCanvas) : list SkyBaseLayerView * (bool * SkCanvas) :=
  match cs with
  | [] => ([], st)
  | childView :: rest =>
    let '(childView1, st1) := renderChild childView (closeMaskFor childView st) in
    let '(rest1, st2) := renderChildrenLoop rest st1 in
    (childView1 :: rest1, st2)
  end.

Definition renderChildren (this : SkyBaseLayerView) (c : SkCanvas)
    : SkyBaseLayerView * SkCanvas :=
  let '(children1, (isMasking, c1)) := renderChildrenLoop (children this) (false, c) in
  (set_children this children1, if isMasking then restore c1 else c1).

(** *** Hit-testing *)

Definition containsPoint (this : SkyBaseLayerView) (pt : Point.t) : bool :=
  let local := applyInverse (worldTransform (transform this)) pt in
  let frame := frame this in
  (0 <? Point.x local) && (0 <? Point.y local)
  && (Point.x local <? Rect.width frame) && (Point.y local <? Rect.height frame).

(** The loop [for (i = children.length - 1; i >= 0; i--)] tries the children
    of higher index first: [scan] asks the rest of the list before its head. *)
Fixpoint findView (pt : Point.t) (this : SkyBaseLayerView)
    : option SkyBaseLayerView :=
  if containsPoint this pt then
    match
      (fix scan (cs : list SkyBaseLayerView) : option SkyBaseLayerView :=
         match cs with
         | [] => None
         | child :: rest =>
           match scan rest with
           | Some view => Some view
           | None => if interactive child then findView pt child else None
           end
         end) (children this)
    with
    | Some view => Some view
    | None => Some this
    end
  else None.

(** *** Vocabulary of the statements *)

(** The surface as [childView.render()] finds it in [renderChildren], when
    [childView] comes right after the siblings [pre]. *)
Definition renderEntry (pre : list SkyBaseLayerView)
    (childView : SkyBaseLayerView) (c : SkCanvas) : SkCanvas :=
  snd (closeMaskFor childView (snd (renderChildrenLoop pre (false, c)))).

(** The mask whose clip scope is open after a run of siblings: the last
    sibling that is a mask, unless a later one breaks the chain. *)
Definition maskAfter (cur : option SkyBaseLayerView)
    (cs : list SkyBaseLayerView) : option SkyBaseLayerView :=
  fold_left
    (fun cur childView =>
       if isMask childView then Some childView
       else if shouldBreakMaskChain childView then None
       else cur)
    cs cur.

(** The mask that clips a child coming after the siblings [pre]. *)
Definition governingMask (pre : list SkyBaseLayerView)
    (childView : SkyBaseLayerView) : option SkyBaseLayerView :=
  if isMask childView || shouldBreakMaskChain childView then None
  else maskAfter None pre.

(** The state of the loop of [renderChildren] between two children, seen
    from the surface [(g0, stack0)] the loop started on: either no mask scope
    is open and the surface is as it was, or one mask scope is open right
    above the stack the loop started on. *)
Definition maskChainState (g0 : GState) (stack0 : list (Scope * GState))
    (cur : option SkyBaseLayerView) (st : bool * SkCanvas) : Prop :=
  match cur with
  | None =>
    fst st = false /\ current (snd st) = g0 /\ saved (snd st) = stack0
  | Some _ =>
    fst st = true /\ saved (snd st) = (ScopeSave, g0) :: stack0
  end.

(** First answer of [f] along a list. *)
Fixpoint firstSome {A B : Type} (f : A -> option B) (l : list A) : option B :=
  match l with
  | [] => None
  | a :: rest =>
    match f a with
    | Some b => Some b
    | None => firstSome f rest
    end
  end.

(** What a child contributes to the search of its parent. *)
Definition tryChild (pt : Point.t) (child : SkyBaseLayerView)
    : option SkyBaseLayerView :=
  if interactive child then findView pt child else None.

(** [findView] together with the views on which it was entered, in the order
    of the calls. *)
Fixpoint findViewVisits (pt : Point.t) (this : SkyBaseLayerView)
    : option SkyBaseLayerView * list SkyBaseLayerView :=
  if containsPoint this pt then
    let '(found, visits) :=
      (fix scan (cs : list SkyBaseLayerView)
         : option SkyBaseLayerView * list SkyBaseLayerView :=
         match cs with
         | [] => (None, [])
         | child :: rest =>
           let '(found, visits) := scan rest in
           match found with
           | Some view => (Some view, visits)
           | None =>
             if interactive child then
               let '(found1, visits1) := findViewVisits pt child in
               (found1, visits ++ visits1)
             else (None, visits)
           end
         end) (children this) in
    (match found with Some view => Some view | None => Some this end,
     this :: visits)
  else (None, [this]).

(** The visits made while the children [tested] are tried in that order,
    up to the first one that answers. *)
Fixpoint scanVisits (pt : Point.t) (tested : list SkyBaseLayerView)
    : list SkyBaseLayerView :=
  match tested with
  | [] => []
  | child :: rest =>
    if interactive child then
      snd (findViewVisits pt child)
      ++ match fst (findViewVisits pt child) with
         | Some _ => []
         | None => scanVisits pt rest
         end
    else scanVisits pt rest
  end.

(** [r] is reached from [this] through children that are interactive and
    contain the point. *)
Inductive reachedThroughHits (pt : Point.t)
    : SkyBaseLayerView -> SkyBaseLayerView -> Prop :=
| reached_here (this : SkyBaseLayerView) : reachedThroughHits pt this this
| reached_below (this child r : SkyBaseLayerView) :
    In child (children this) ->
    interactive child = true ->
    containsPoint child pt = true ->
    reachedThroughHits pt child r ->
    reachedThroughHits pt this r.

(** The point, taken to the local space of [this], lies exactly on an edge
    of its frame. *)
Definition onFrameEdge (this : SkyBaseLayerView) (pt : Point.t) : bool :=
  let local := applyInverse (worldTransform (transform this)) pt in
  let frame := frame this in
  (Point.x local =? 0) || (Point.y local =? 0)
  || (Point.x local =? Rect.width frame) || (Point.y local =? Rect.height frame).

(** Structural induction on the view tree. *)
Fixpoint SkyBaseLayerView_tree_ind (P : SkyBaseLayerView -> Prop)
    (step : forall v, Forall P (children v) -> P v)
    (v : SkyBaseLayerView) {struct v} : P v :=
  step v
    ((fix all (cs : list SkyBaseLayerView) : Forall P cs :=
        match cs with
        | [] => Forall_nil P
        | c :: rest =>
          Forall_cons c (SkyBaseLayerView_tree_ind P step c) (all rest)
        end) (children v)).

(** *** Layers and views used in the worked examples *)

Definition mkResizable (id : string) (f : Rect.t)
    (fixedWidth fixedHeight snapLeft snapRight snapTop snapBottom : bool)
    : SkyBaseLayer.t :=
  SkyBaseLayer.mk id f 0 false false true false false false
    fixedWidth fixedHeight snapLeft snapRight snapTop snapBottom None.

Definition mkSibling (id : string) (f : Rect.t)
    (isVisible isLocked hasClippingMask shouldBreakMaskChain : bool)
    : SkyBaseLayer.t :=
  SkyBaseLayer.mk id f 0 false false isVisible isLocked hasClippingMask
    shouldBreakMaskChain false false false false false false None.

Definition mkLeaf (m : SkyBaseLayer.t) (t : Transform) : SkyBaseLayerView :=
  mkView m [] t None PaintUndefined false true.

(** A container authored at [master] and displayed at [instance]. *)
Definition mkScaledParent (master instance : Rect.t) (t : Transform)
    : SkyBaseLayerView :=
  mkView (mkResizable "instance" master false false false false false false)
         [] t (Some instance) PaintUndefined false true.

(** A transform at rest, carrying the matrix [m] as local and world matrix. *)
Definition restTransform (m : Matrix) : Transform :=
  mkTransform (Point.mk 0 0) (Point.mk 0 0) (Point.mk 1 1) 0 m m.

(** A container authored 100 x 100 and displayed 140 x 100. *)
Definition widenedInstance (t : Transform) : SkyBaseLayerView :=
  mkScaledParent (Rect.mk 0 0 100 100) (Rect.mk 0 0 140 100) t.

(** A container displayed at its authored size. *)
Definition unscaledGroup (t : Transform) : SkyBaseLayerView :=
  mkLeaf (mkResizable "group" (Rect.mk 0 0 100 100)
            false false false false false false) t.

(** [x = 10, width = 80] in a master of width 100: margins 10 and 10. *)
Definition pinnedBothSides (fixedWidth : bool) (t : Transform)
    : SkyBaseLayerView :=
  mkLeaf (mkResizable "child" (Rect.mk 10 0 80 20)
            fixedWidth false true true false false) t.

(** [x = 10, width = 50] in a master of width 100: trailing margin 40. *)
Definition pinnedRight (fixedWidth : bool) (t : Transform)
    : SkyBaseLayerView :=
  mkLeaf (mkResizable "child" (Rect.mk 10 0 50 20)
            fixedWidth false false true false false) t.

(** [x = 20, width = 20], no edge pinned. *)
Definition unpinned (fixedWidth : bool) (t : Transform) : SkyBaseLayerView :=
  mkLeaf (mkResizable "child" (Rect.mk 20 40 20 20)
            fixedWidth false false false false false) t.

Definition siblingView (id : string) (f : Rect.t)
    (hasClippingMask shouldBreakMaskChain : bool) (t : Transform)
    : SkyBaseLayerView :=
  mkLeaf (mkSibling id f true false hasClippingMask shouldBreakMaskChain) t.

(** Five siblings in paint order: [mask1; plain1; plain2; mask2; plain3]. *)
Definition maskedSiblings (t : Transform) : list SkyBaseLayerView :=
  let f := Rect.mk 0 0 10 10 in
  [siblingView "mask1" f true false t; siblingView "plain1" f false false t;
   siblingView "plain2" f false false t; siblingView "mask2" f true false t;
   siblingView "plain3" f false false t].

Definition groupOf (id : string) (f : Rect.t) (isVisible isLocked : bool)
    (cs : list SkyBaseLayerView) (t : Transform) : SkyBaseLayerView :=
  mkView (mkSibling id f isVisible isLocked false false) cs t None
         PaintUndefined false true.

(** A visible layer at half opacity: it needs a layer paint. *)
Definition translucentView (t : Transform) : SkyBaseLayerView :=
  mkLeaf
    (SkyBaseLayer.mk "fade" (Rect.mk 0 0 10 10) 0 false false true false
       false false false false false false false false
       (Some (mkStyle (Some (mkContextSettings 0.5 SrcOver)) None None)))
    t.

(** A surface with nothing saved, no clip and no call made. *)
Definition freshCanvas (m : Matrix) : SkCanvas :=
  mkCanvas (mkGState m []) [] 0 0.

(** A drawing routine that works inside a scope of its own and, like a
    container's, fills the paint caches of the children. *)
Definition drawInOwnScope (v : SkyBaseLayerView) (c : SkCanvas)
    : SkyBaseLayerView * SkCanvas :=
  (set_children v (map buildLayerPaint (children v)),
   restore (clipPath (SkyBaseLayer.objectId (model v)) (save c))).

(** A [_tryClip] override that intersects the layer's own shape into the
    clip. *)
Definition clipOwnShape (v : SkyBaseLayerView) (c : SkCanvas)
    : SkyBaseLayerView * SkCanvas :=
  (v, clipPath (SkyBaseLayer.objectId (model v)) c).

(** A mask that is hidden, and a hidden sibling that is neither a mask nor
    a chain breaker. *)
Definition hiddenMask (t : Transform) : SkyBaseLayerView :=
  mkLeaf (mkSibling "hiddenMask" (Rect.mk 0 0 10 10) false false true false) t.

Definition hiddenPlain (t : Transform) : SkyBaseLayerView :=
  mkLeaf (mkSibling "hiddenPlain" (Rect.mk 0 0 10 10) false false false false) t.

Definition neverReject (c : SkCanvas) (r : Rect.t) : bool := false.

Definition sameFrame (m : SkyBaseLayer.t) (r : Rect.t) : Rect.t := r.

(** A root with three children laid over one another, the last one locked;
    the root sits at [origin], the children at [inner]. *)
Definition stackedScene (origin inner : Matrix) : SkyBaseLayerView :=
  let f := Rect.mk 10 10 20 20 in
  groupOf "root" (Rect.mk 0 0 100 100) true false
    [siblingView "a" f false false (restTransform inner);
     siblingView "b" f false false (restTransform inner);
     mkLeaf (mkSibling "c" f true true false false) (restTransform inner)]
    (restTransform origin).

(** *** Construction and traversal of the tree *)

(** The constructors of the concrete view variants, by class. *)
Variable newView : ClassValue.t -> SkyBaseLayer.t -> SkyBaseLayerView.

(** [addChild] appends the child (and points its [parent] to [this]). *)
Definition addChild (this child : SkyBaseLayerView) : SkyBaseLayerView :=
  set_children this (children this ++ [child]).

(** One turn of the [forEach] of [buildChildren]: the [switch] on
    [childModel._class] has no default case. *)
Definition buildChild (this : SkyBaseLayerView)
    (childModel : ClassValue.t * SkyBaseLayer.t) : SkyBaseLayerView :=
  match fst childModel with
  | ClassValue.Group =>
    addChild this (newView ClassValue.Group (snd childModel))
  | ClassValue.ShapeGroup =>
    addChild this (newView ClassValue.ShapeGroup (snd childModel))
  | ClassValue.ShapeLike =>
    addChild this (newView ClassValue.ShapeLike (snd childModel))
  | ClassValue.Bitmap =>
    addChild this (newView ClassValue.Bitmap (snd childModel))
  | ClassValue.Text =>
    addChild this (newView ClassValue.Text (snd childModel))
  | ClassValue.SymbolInstance =>
    addChild this (newView ClassValue.SymbolInstance (snd childModel))
  | ClassValue.SymbolMaster =>
    addChild this (newView ClassValue.SymbolMaster (snd childModel))
  | ClassValue.Artboard =>
    addChild this (newView ClassValue.Artboard (snd childModel))
  | ClassValue.Other _ => this
  end.

Definition buildChildren (this : SkyBaseLayerView)
    (layers : list (ClassValue.t * SkyBaseLayer.t)) : SkyBaseLayerView :=
  fold_left buildChild layers this.

(** The classes [buildChildren] has a view for. *)
Definition hasView (c : ClassValue.t) : bool :=
  match c with ClassValue.Other _ => false | _ => true end.

(** [traverse(fn)]: the views in the order in which [fn] is called. *)
Fixpoint traverse (this : SkyBaseLayerView) : list SkyBaseLayerView :=
  this ::
  (fix each (cs : list SkyBaseLayerView) : list SkyBaseLayerView :=
     match cs with
     | [] => []
     | child :: rest => traverse child ++ each rest
     end) (children this).

(** *** Layout *)

(** [Transform.updateTransform(parentTransform)] and [Transform.IDENTITY] of
    [../base], and the [layoutSelf] of the concrete view variants (the base
    one does nothing). *)
Variable updateWorldTransform : Transform -> Transform -> Transform.
Variable IDENTITY : Transform.
Variable layoutSelf :
  option SkyBaseLayerView -> SkyBaseLayerView -> SkyBaseLayerView.

(** A view with its two dirty flags.  [own] holds the fields of the node
    itself, [kids] its children; the child list inside [own] is not read by
    the layout pass. *)
Inductive LayoutView : Type := mkLayoutView {
  own : SkyBaseLayerView;
  _layoutDirty : bool;
  _transformDirty : bool;
  kids : list LayoutView
}.

Fixpoint layout (parent : option SkyBaseLayerView) (this : LayoutView)
    : LayoutView :=
  let v0 := own this in
  let v1 := if _layoutDirty this then layoutSelf parent v0 else v0 in
  let v2 := if _transformDirty this then updateTransform v1 else v1 in
  let parentTransform :=
    match parent with
    | Some p => transform p
    | None => IDENTITY
    end in
  let v3 :=
    set_transform v2 (updateWorldTransform (transform v2) parentTransform) in
  mkLayoutView v3 false false (map (layout (Some v3)) (kids this)).

(** The pass that only refreshes the world transforms. *)
Fixpoint refreshWorld (parent : option SkyBaseLayerView) (this : LayoutView)
    : LayoutView :=
  let parentTransform :=
    match parent with
    | Some p => transform p
    | None => IDENTITY
    end in
  let v3 :=
    set_transform (own this)
      (updateWorldTransform (transform (own this)) parentTransform) in
  mkLayoutView v3 (_layoutDirty this) (_transformDirty this)
    (map (refreshWorld (Some v3)) (kids this)).

(** The nodes of a layout tree, parents first. *)
Fixpoint layoutNodes (this : LayoutView) : list LayoutView :=
  this :: flat_map layoutNodes (kids this).

Definition isClean (n : LayoutView) : bool :=
  negb (_layoutDirty n) && negb (_transformDirty n).

(** A number that is not [NaN]. *)
Definition isNumber (a : float) : bool := a =? a.

Definition hasNumericSize (n : LayoutView) : bool :=
  isNumber (Rect.width (intrinsicFrame (own n)))
  && isNumber (Rect.height (intrinsicFrame (own n))).

(** Structural induction on the layout tree. *)
Fixpoint LayoutView_tree_ind (P : LayoutView -> Prop)
    (step : forall n, Forall P (kids n) -> P n)
    (n : LayoutView) {struct n} : P n :=
  step n
    ((fix all (cs : list LayoutView) : Forall P cs :=
        match cs with
        | [] => Forall_nil P
        | c :: rest => Forall_cons c (LayoutView_tree_ind P step c) (all rest)
        end) (kids n)).

(** Fresh nodes are dirty: a tree of leaves under one parent. *)
Definition freshLayout (v : SkyBaseLayerView) (cs : list LayoutView)
    : LayoutView :=
  mkLayoutView v true true cs.

(** [x = 10, width = 50], left edge pinned. *)
Definition pinnedLeft (fixedWidth : bool) (t : Transform) : SkyBaseLayerView :=
  mkLeaf (mkResizable "child" (Rect.mk 10 0 50 20)
            fixedWidth false true false false false) t.

(** The [layoutSelf] of a variant that lays itself out with
    [commonLayoutSelf]. *)
Definition groupLayoutSelf (parent : option SkyBaseLayerView)
    (this : SkyBaseLayerView) : SkyBaseLayerView :=
  match commonLayoutSelf parent this with
  | Some this1 => this1
  | None => this
  end.

(** A fresh group with two fresh children, the second one hidden and
    carrying a scaled frame from an earlier pass. *)
Definition freshTree (t : Transform) : LayoutView :=
  freshLayout (unscaledGroup t)
    [freshLayout (pinnedRight false t) [];
     freshLayout
       (set_scaledFrame
          (mkLeaf (mkSibling "hidden" (Rect.mk 5 5 10 10) false false false false) t)
          (Some (Rect.mk 1 2 3 4)))
       []].

(** ** Comparison facts on binary64 numbers *)

Lemma SFcompare_Eq_sym (a b : spec_float) :
  SFcompare a b = Some Eq -> SFcompare b a = Some Eq.
Proof.
  destruct a as [sa|sa| |sa ma ea], b as [sb|sb| |sb mb eb]; simpl;
    try discriminate; auto;
    try (destruct sa; discriminate); try (destruct sb; discriminate);
    try (destruct sa, sb; simpl; congruence).
  destruct sa, sb; try discriminate;
    (destruct (Z.compare ea eb) eqn:E; try discriminate;
     apply Z.compare_eq in E; subst;
     destruct (Pos.compare_cont Eq ma mb) eqn:F; try discriminate;
     apply Pos.compare_eq in F; subst; intros _;
     rewrite Z.compare_refl; fold (Pos.compare mb mb);
     rewrite Pos.compare_refl; reflexivity).
Qed.

(** Two numbers that are [===] are not [<] one another, either way. *)
Lemma eqb_true_ltb (a b : float) :
  (a =? b) = true -> (a <? b) = false /\ (b <? a) = false.
Proof.
  rewrite eqb_spec, !ltb_spec. unfold SFeqb, SFltb. intros H.
  destruct (SFcompare (Prim2SF a) (Prim2SF b)) as [[| |]|] eqn:E;
    try discriminate.
  rewrite (SFcompare_Eq_sym _ _ E). split; reflexivity.
Qed.

Lemma float_neq_by_eqb (a b : float) : (a =? b) = false -> (b =? b) = true -> a <> b.
Proof. intros H1 H2 ->. congruence. Qed.

(** ** Instance scaling *)

Lemma frame_set_scaledFrame_None (this : SkyBaseLayerView) :
  frame (set_scaledFrame this None) = SkyBaseLayer.frame (model this).
Proof. reflexivity. Qed.

Lemma calcInstanceChildScale_scaled (p this : SkyBaseLayerView) :
  isFrameScaled p = true ->
  exists info, calcInstanceChildScale (Some p) this = Some info.
Proof.
  intros Hs. unfold calcInstanceChildScale. rewrite Hs. simpl. eauto.
Qed.

(** [commonLayoutSelf] never takes the throwing path: whenever the scale step
    answers, the parent exists. *)
Lemma commonLayoutSelf_total (parent : option SkyBaseLayerView)
    (this : SkyBaseLayerView) :
  exists this1, commonLayoutSelf parent this = Some this1.
Proof.
  unfold commonLayoutSelf.
  destruct parent as [p|]; [|simpl; eauto].
  destruct (calcInstanceChildScale (Some p) (set_scaledFrame this None)); simpl; eauto.
Qed.

(** What [commonLayoutSelf] stores when the scale step answers: the scaled
    size, at the origin that [calcOffsetAfterScale] computes for it. *)
Lemma commonLayoutSelf_scaled (p this : SkyBaseLayerView) (info : ScaleInfo) :
  calcInstanceChildScale (Some p) (set_scaledFrame this None) = Some info ->
  let this0 := set_scaledFrame this None in
  let oldFrame := SkyBaseLayer.frame (model this) in
  let w1 := scaleX info * Rect.width oldFrame in
  let h1 := scaleY info * Rect.height oldFrame in
  exists off,
    calcOffsetAfterScale (Some p) this0 (Rect.mk 0 0 w1 h1) oldFrame = Some off
    /\ commonLayoutSelf (Some p) this
       = Some (set_scaledFrame this0 (Some (Rect.mk (newX off) (newY off) w1 h1))).
Proof.
  intros H. cbv zeta. unfold commonLayoutSelf. rewrite H.
  unfold calcOffsetAfterScale. eexists. split; reflexivity.
Qed.

(** C8: a node without a parent, or whose parent's current frame size
    equals ([===], per dimension) the parent's intrinsic frame size, gets
    no override from [calcInstanceChildScale]; [commonLayoutSelf] then
    completes normally and leaves [scaledFrame] absent, so the node's frame is
    its intrinsic frame. *)
Theorem calcInstanceChildScale_no_override
    (parent : option SkyBaseLayerView) (this : SkyBaseLayerView) :
  (parent = None
   \/ exists p, parent = Some p
        /\ (Rect.width (intrinsicFrame p) =? Rect.width (frame p)) = true
        /\ (Rect.height (intrinsicFrame p) =? Rect.height (frame p)) = true) ->
  calcInstanceChildScale parent this = None
  /\ exists this1,
       commonLayoutSelf parent this = Some this1
       /\ scaledFrame this1 = None
       /\ frame this1 = intrinsicFrame this.
Proof.
  intros [-> | (p & -> & Hw & Hh)].
  - split; [reflexivity|]. eexists. split; [reflexivity|]. split; reflexivity.
  - assert (Hs : forall v, calcInstanceChildScale (Some p) v = None).
    { intros v. unfold calcInstanceChildScale, isFrameScaled.
      rewrite Hw, Hh. reflexivity. }
    split; [apply Hs|].
    unfold commonLayoutSelf. rewrite Hs.
    eexists. split; [reflexivity|]. split; reflexivity.
Qed.

(** C1 (amended): with a scaled parent, a child whose width is fixed gets
    [scaleX = 1] unless both its left and right edges are snapped, in which
    case the stretch scale applies although the width is fixed; the same on
    the vertical axis.  [commonLayoutSelf] stores the frame of the scaled
    size at the origin that [calcOffsetAfterScale] computes for that size, so
    the offset step runs for fixed axes too. *)
Theorem fixed_axis_scale_unless_both_snapped (p this : SkyBaseLayerView) :
  isFrameScaled p = true ->
  let m := model this in
  let oldFrame := SkyBaseLayer.frame m in
  (exists info,
     calcInstanceChildScale (Some p) this = Some info
     /\ (SkyBaseLayer.fixedWidth m = true ->
         scaleX info =
           if SkyBaseLayer.snapLeft m && SkyBaseLayer.snapRight m
           then (Rect.width (frame p)
                 - (Rect.width (intrinsicFrame p) - Rect.width (frame this)))
                / Rect.width (frame this)
           else 1)
     /\ (SkyBaseLayer.fixedHeight m = true ->
         scaleY info =
           if SkyBaseLayer.snapTop m && SkyBaseLayer.snapBottom m
           then (Rect.height (frame p)
                 - (Rect.height (intrinsicFrame p) - Rect.height (frame this)))
                / Rect.height (frame this)
           else 1))
  /\ (exists info off f,
        calcInstanceChildScale (Some p) (set_scaledFrame this None) = Some info
        /\ calcOffsetAfterScale (Some p) (set_scaledFrame this None)
             (Rect.mk 0 0 (scaleX info * Rect.width oldFrame)
                          (scaleY info * Rect.height oldFrame)) oldFrame
           = Some off
        /\ commonLayoutSelf (Some p) this
           = Some (set_scaledFrame (set_scaledFrame this None) (Some f))
        /\ Rect.x f = newX off /\ Rect.y f = newY off
        /\ Rect.width f = scaleX info * Rect.width oldFrame
        /\ Rect.height f = scaleY info * Rect.height oldFrame
        /\ (SkyBaseLayer.fixedWidth m = true ->
            SkyBaseLayer.snapLeft m && SkyBaseLayer.snapRight m = false ->
            Rect.width f = 1 * Rect.width oldFrame)
        /\ (SkyBaseLayer.fixedHeight m = true ->
            SkyBaseLayer.snapTop m && SkyBaseLayer.snapBottom m = false ->
            Rect.height f = 1 * Rect.height oldFrame)).
Proof.
  intros Hs m oldFrame. split.
  - unfold calcInstanceChildScale. rewrite Hs. simpl.
    eexists. split; [reflexivity|]. simpl. fold m. split; intros ->.
    + destruct (SkyBaseLayer.snapLeft m), (SkyBaseLayer.snapRight m); reflexivity.
    + destruct (SkyBaseLayer.snapTop m), (SkyBaseLayer.snapBottom m); reflexivity.
  - destruct (calcInstanceChildScale_scaled p (set_scaledFrame this None) Hs)
      as [info Hinfo].
    destruct (commonLayoutSelf_scaled p this info Hinfo) as (off & Hoff & Hc).
    exists info, off. eexists. split; [exact Hinfo|]. split; [exact Hoff|].
    split; [exact Hc|]. simpl.
    do 4 (split; [reflexivity|]).
    revert Hinfo. unfold calcInstanceChildScale. rewrite Hs. simpl. fold m.
    intros [= <-]. simpl.
    split; intros -> Hb.
    + destruct (SkyBaseLayer.snapLeft m), (SkyBaseLayer.snapRight m);
        try discriminate; reflexivity.
    + destruct (SkyBaseLayer.snapTop m), (SkyBaseLayer.snapBottom m);
        try discriminate; reflexivity.
Qed.

(** C2: with a scaled parent, a child whose two edges on an axis are both
    snapped gets on that axis
    [scale = (instanceFrame.size - (masterFrame.size - childFrame.size)) / childFrame.size],
    and [calcOffsetAfterScale] returns the old origin on that axis. *)
Theorem both_edges_snapped_stretch (p this : SkyBaseLayerView)
    (newBounds oldBounds : Rect.t) :
  isFrameScaled p = true ->
  let m := model this in
  let instanceFrame := frame p in
  let masterFrame := intrinsicFrame p in
  let childFrame := frame this in
  exists info off,
    calcInstanceChildScale (Some p) this = Some info
    /\ calcOffsetAfterScale (Some p) this newBounds oldBounds = Some off
    /\ (SkyBaseLayer.snapLeft m = true -> SkyBaseLayer.snapRight m = true ->
        scaleX info
        = (Rect.width instanceFrame
           - (Rect.width masterFrame - Rect.width childFrame))
          / Rect.width childFrame
        /\ newX off = Rect.x oldBounds)
    /\ (SkyBaseLayer.snapTop m = true -> SkyBaseLayer.snapBottom m = true ->
        scaleY info
        = (Rect.height instanceFrame
           - (Rect.height masterFrame - Rect.height childFrame))
          / Rect.height childFrame
        /\ newY off = Rect.y oldBounds).
Proof.
  intros Hs m instanceFrame masterFrame childFrame.
  unfold calcInstanceChildScale, calcOffsetAfterScale. rewrite Hs. simpl.
  do 2 eexists. split; [reflexivity|]. split; [reflexivity|]. simpl. fold m.
  split; intros -> ->; split; reflexivity.
Qed.

(** C3: with a scaled parent, a child with only its trailing edge snapped on
    an axis that is not fixed gets
    [scale = (masterFrame.size * instanceScale - trailingMargin)
             / (masterFrame.size - trailingMargin)]
    with [trailingMargin = masterFrame.size - childFrame.size - childFrame.origin],
    and [calcOffsetAfterScale] places it at
    [instanceFrame.size - newSize - trailingMargin]. *)
Theorem trailing_edge_snapped_scale_and_offset (p this : SkyBaseLayerView)
    (newBounds oldBounds : Rect.t) :
  isFrameScaled p = true ->
  let m := model this in
  let instanceFrame := frame p in
  let masterFrame := intrinsicFrame p in
  let childFrame := frame this in
  let instanceScaleX := Rect.width instanceFrame / Rect.width masterFrame in
  let instanceScaleY := Rect.height instanceFrame / Rect.height masterFrame in
  exists info off,
    calcInstanceChildScale (Some p) this = Some info
    /\ calcOffsetAfterScale (Some p) this newBounds oldBounds = Some off
    /\ (SkyBaseLayer.snapRight m = true -> SkyBaseLayer.snapLeft m = false ->
        SkyBaseLayer.fixedWidth m = false ->
        let trailingMargin :=
          Rect.width masterFrame - Rect.width childFrame - Rect.x childFrame in
        let oldTrailingMargin :=
          Rect.width masterFrame - Rect.width oldBounds - Rect.x oldBounds in
        scaleX info
        = (Rect.width masterFrame * instanceScaleX - trailingMargin)
          / (Rect.width masterFrame - trailingMargin)
        /\ newX off
           = Rect.width instanceFrame - Rect.width newBounds - oldTrailingMargin)
    /\ (SkyBaseLayer.snapBottom m = true -> SkyBaseLayer.snapTop m = false ->
        SkyBaseLayer.fixedHeight m = false ->
        let trailingMargin :=
          Rect.height masterFrame - Rect.height childFrame - Rect.y childFrame in
        let oldTrailingMargin :=
          Rect.height masterFrame - Rect.height oldBounds - Rect.y oldBounds in
        scaleY info
        = (Rect.height masterFrame * instanceScaleY - trailingMargin)
          / (Rect.height masterFrame - trailingMargin)
        /\ newY off
           = Rect.height instanceFrame - Rect.height newBounds - oldTrailingMargin).
Proof.
  intros Hs m instanceFrame masterFrame childFrame isx isy.
  unfold calcInstanceChildScale, calcOffsetAfterScale. rewrite Hs. simpl.
  do 2 eexists. split; [reflexivity|]. split; [reflexivity|]. simpl. fold m.
  split; intros -> -> ->; split; reflexivity.
Qed.

(** C4: with neither edge of an axis snapped, [calcOffsetAfterScale] keeps
    the proportional centre: old centre over the master length, times the
    instance length, minus half the new size.  Master width 100, child
    [x = 20, width = 20], instance width 200: the child is laid out at
    width 40 and origin 40 (new centre 60). *)
Theorem neither_edge_snapped_keeps_center (p this : SkyBaseLayerView)
    (newBounds oldBounds : Rect.t) (t : Transform) :
  let m := model this in
  let instanceFrame := frame p in
  let masterFrame := intrinsicFrame p in
  (exists off,
     calcOffsetAfterScale (Some p) this newBounds oldBounds = Some off
     /\ (SkyBaseLayer.snapLeft m = false -> SkyBaseLayer.snapRight m = false ->
         let oldCenter := Rect.x oldBounds + Rect.width oldBounds / 2 in
         let newCenter :=
           oldCenter / Rect.width masterFrame * Rect.width instanceFrame in
         newX off = newCenter - Rect.width newBounds / 2)
     /\ (SkyBaseLayer.snapTop m = false -> SkyBaseLayer.snapBottom m = false ->
         let oldCenter := Rect.y oldBounds + Rect.height oldBounds / 2 in
         let newCenter :=
           oldCenter / Rect.height masterFrame * Rect.height instanceFrame in
         newY off = newCenter - Rect.height newBounds / 2))
  /\ (let parent := mkScaledParent (Rect.mk 0 0 100 100) (Rect.mk 0 0 200 100) t in
      let child :=
        mkLeaf (mkResizable "child" (Rect.mk 20 40 20 20)
                  false false false false false false) t in
      (20 + 20 / 2) / 100 * 200 = 60
      /\ option_map frame (commonLayoutSelf (Some parent) child)
         = Some (Rect.mk 40 40 40 20)).
Proof.
  intros m instanceFrame masterFrame. split.
  - unfold calcOffsetAfterScale. eexists. split; [reflexivity|]. simpl. fold m.
    split; intros -> ->; reflexivity.
  - split; reflexivity.
Qed.

(** ** Local transform *)

(** C5: [updateTransform] sets the pivot to the centre of the current frame
    (the scaled frame if present, else the intrinsic one), the position to
    that centre in parent coordinates, the scale to [-1] or [1] per flip
    flag, the rotation to [-1 * scaleX * scaleY * degreeToRadian(rotation)],
    that is the negated product of the two signs times the angle, and then
    runs [updateLocalTransform] on the transform so set; nothing else of the
    view changes. *)
Theorem updateTransform_sets_pivot_scale_rotation_position
    (this : SkyBaseLayerView) :
  let f := match scaledFrame this with
           | Some sf => sf
           | None => intrinsicFrame this
           end in
  let sx := if SkyBaseLayer.isFlippedHorizontal (model this) then -1 else 1 in
  let sy := if SkyBaseLayer.isFlippedVertical (model this) then -1 else 1 in
  let angle := degreeToRadian (SkyBaseLayer.rotation (model this)) in
  exists t1,
    updateTransform this = set_transform this (updateLocalTransform t1)
    /\ pivot t1 = Point.mk (Rect.width f / 2) (Rect.height f / 2)
    /\ position t1 = Point.mk (Rect.x f + Rect.width f / 2)
                              (Rect.y f + Rect.height f / 2)
    /\ scale t1 = Point.mk sx sy
    /\ rotation t1 = -1 * sx * sy * angle
    /\ rotation t1 = - (sx * sy) * angle
    /\ localTransform t1 = localTransform (transform this)
    /\ worldTransform t1 = worldTransform (transform this).
Proof.
  intros f sx sy angle. unfold updateTransform. eexists.
  split; [reflexivity|]. simpl.
  repeat (split; [reflexivity|]).
  split; [|split; reflexivity].
  subst sx sy.
  destruct (SkyBaseLayer.isFlippedHorizontal (model this)),
           (SkyBaseLayer.isFlippedVertical (model this)); reflexivity.
Qed.

(** ** Render: save scopes *)

Lemma restore_pops (c : SkCanvas) (s : Scope) (g : GState)
    (rest : list (Scope * GState)) :
  saved c = (s, g) :: rest ->
  restore c = mkCanvas g rest (saveCalls c) (S (restoreCalls c)).
Proof. intros H. unfold restore. rewrite H. reflexivity. Qed.

Lemma restore_saveCalls (c : SkCanvas) :
  saveCalls (restore c) = saveCalls c.
Proof. unfold restore. destruct (saved c) as [|[s g] r]; reflexivity. Qed.

Lemma restore_restoreCalls (c : SkCanvas) :
  restoreCalls (restore c) = S (restoreCalls c).
Proof. unfold restore. destruct (saved c) as [|[s g] r]; reflexivity. Qed.

Lemma buildLayerPaint_resolves (this : SkyBaseLayerView) :
  model (buildLayerPaint this) = model this
  /\ layerPaint (buildLayerPaint this) <> PaintUndefined.
Proof.
  unfold buildLayerPaint.
  destruct (SkyBaseLayer.style (model this)) as [st|]; [|split; [reflexivity|discriminate]].
  repeat match goal with
         | |- context [let '(_, _) := ?e in _] => destruct e
         end.
  match goal with |- context [if ?b then _ else _] => destruct b end;
    (split; [reflexivity|discriminate]).
Qed.

(** [applyLayerStyle] leaves the paint resolved, and opens a layer exactly
    when the resolved paint is present. *)
Lemma applyLayerStyle_opens_layer (this : SkyBaseLayerView) (c : SkCanvas) :
  model (fst (applyLayerStyle this c)) = model this
  /\ match layerPaint (fst (applyLayerStyle this c)) with
     | PaintSome p => snd (applyLayerStyle this c) = saveLayer p c
     | PaintNull => snd (applyLayerStyle this c) = c
     | PaintUndefined => False
     end.
Proof.
  unfold applyLayerStyle.
  destruct (layerPaint this) eqn:E.
  - destruct (buildLayerPaint_resolves this) as [Hm Hu].
    destruct (layerPaint (buildLayerPaint this)) eqn:E2; simpl; rewrite ?E2;
      [congruence|auto|auto].
  - rewrite E. simpl. rewrite E. auto.
  - rewrite E. simpl. rewrite E. auto.
Qed.

Section RenderScopes.

(** The drawing routine of a view variant hands the save stack back as it
    found it, and leaves the resolved layer paint of the view alone. *)
Hypothesis _render_keeps_stack :
  forall v c, saved (snd (_render v c)) = saved c.
Hypothesis _render_keeps_paint :
  forall v c, layerPaint (fst (_render v c)) = layerPaint v.

(** The scopes [render] holds when its drawing is done, most recent first,
    and their release one by one down to the surface as it was found. *)
Lemma render_unwinds (this : SkyBaseLayerView) (c : SkCanvas) :
  let this1 := fst (fst (renderBody this c)) in
  let c3 := snd (fst (renderBody this c)) in
  let shouldRender := snd (renderBody this c) in
  exists scopes,
    saved c3 = scopes ++ saved c
    /\ (scopes = [(ScopeSave, current c)] /\ truthy (layerPaint this1) && shouldRender = false
        \/ exists p g,
             shouldRender = true /\ layerPaint this1 = PaintSome p
             /\ scopes = [(ScopeSaveLayer p, g); (ScopeSave, current c)])
    /\ render this c = (this1, Nat.iter (List.length scopes) restore c3)
    /\ saved (snd (render this c)) = saved c
    /\ current (snd (render this c)) = current c.
Proof.
  unfold render, renderBody.
  destruct (shouldRenderOn this (applyTransform this (save c))) eqn:Hsr.
  - destruct (applyLayerStyle_opens_layer this (applyTransform this (save c)))
      as [_ Hl].
    destruct (applyLayerStyle this (applyTransform this (save c))) as [this1 c3].
    pose proof (_render_keeps_stack this1 c3) as Hst.
    pose proof (_render_keeps_paint this1 c3) as Hpt.
    destruct (_render this1 c3) as [this2 c4].
    simpl in *. rewrite Hpt.
    destruct (layerPaint this1) as [| |p] eqn:Hp; [contradiction| |]; subst c3.
    + exists [(ScopeSave, current c)]. simpl. rewrite Hst. simpl.
      split; [reflexivity|]. split; [left; split; reflexivity|].
      split; [reflexivity|].
      rewrite (restore_pops c4 ScopeSave (current c) (saved c) Hst).
      simpl. auto.
    + eexists [(ScopeSaveLayer p, _); (ScopeSave, current c)]. simpl.
      rewrite Hst. simpl.
      split; [reflexivity|].
      split; [right; do 2 eexists; repeat split; reflexivity|].
      split; [reflexivity|].
      rewrite (restore_pops c4 (ScopeSaveLayer p)
                 (current (applyTransform this (save c)))
                 ((ScopeSave, current c) :: saved c) Hst).
      unfold restore. simpl. auto.
  - exists [(ScopeSave, current c)]. simpl.
    split; [reflexivity|].
    split; [left; split; [reflexivity|apply andb_false_r]|].
    rewrite andb_false_r. unfold restore. simpl. auto.
Qed.

(** C9: provided the drawing routine of the view variants hands back the
    save stack as it found it, leaves the resolved layer paint alone and
    issues as many releases as acquisitions, [render] does too on each of its
    paths: it holds the [save] scope, and above it the [saveLayer] scope when
    a layer paint is present and the node is not rejected; it releases them
    most recent first, and returns the surface with the save stack and the
    matrix and clip it found. *)
Theorem render_releases_every_scope (this : SkyBaseLayerView) (c : SkCanvas) :
  (forall v c0,
     (saveCalls (snd (_render v c0)) + restoreCalls c0
      = restoreCalls (snd (_render v c0)) + saveCalls c0)%nat) ->
  let this1 := fst (fst (renderBody this c)) in
  let c3 := snd (fst (renderBody this c)) in
  let shouldRender := snd (renderBody this c) in
  let c5 := snd (render this c) in
  (exists scopes,
     saved c3 = scopes ++ saved c
     /\ (scopes = [(ScopeSave, current c)]
         /\ truthy (layerPaint this1) && shouldRender = false
         \/ exists p g,
              shouldRender = true /\ layerPaint this1 = PaintSome p
              /\ scopes = [(ScopeSaveLayer p, g); (ScopeSave, current c)])
     /\ c5 = Nat.iter (List.length scopes) restore c3)
  /\ saved c5 = saved c
  /\ current c5 = current c
  /\ (saveCalls c5 + restoreCalls c = restoreCalls c5 + saveCalls c)%nat.
Proof.
  intros Hcalls this1 c3 shouldRender c5.
  destruct (render_unwinds this c)
    as (scopes & Hsaved & Hshape & Hrender & Hs & Hc).
  split; [|split; [exact Hs|split; [exact Hc|]]].
  - exists scopes. split; [exact Hsaved|]. split; [exact Hshape|].
    subst c5. rewrite Hrender. reflexivity.
  - subst c5. unfold render, renderBody.
    destruct (shouldRenderOn this (applyTransform this (save c))) eqn:Hsr.
    + destruct (applyLayerStyle_opens_layer this (applyTransform this (save c)))
        as [_ Hl].
      destruct (applyLayerStyle this (applyTransform this (save c))) as [v1 c2].
      specialize (Hcalls v1 c2).
      pose proof (_render_keeps_paint v1 c2) as Hpt.
      destruct (_render v1 c2) as [v2 c4].
      simpl in *. rewrite Hpt.
      destruct (layerPaint v1) as [| |p]; [contradiction| |]; subst c2; simpl.
      * rewrite ?restore_saveCalls, ?restore_restoreCalls. simpl in *. lia.
      * rewrite ?restore_saveCalls, ?restore_restoreCalls. simpl in *. lia.
    + rewrite andb_false_r. rewrite ?restore_saveCalls, ?restore_restoreCalls. simpl. lia.
Qed.

(** ** Mask chain *)

(** The drawing routine keeps the model of the view, and the clipping routine
    of a view variant hands the save stack back as it found it. *)
Hypothesis _render_keeps_model :
  forall v c, model (fst (_render v c)) = model v.
Hypothesis _tryClip_keeps_stack :
  forall v c, saved (snd (_tryClip v c)) = saved c.

Lemma render_keeps_surface (v : SkyBaseLayerView) (c : SkCanvas) :
  saved (snd (render v c)) = saved c
  /\ current (snd (render v c)) = current c
  /\ model (fst (render v c)) = model v.
Proof.
  destruct (render_unwinds v c) as (_ & _ & _ & _ & Hs & Hc).
  split; [exact Hs|]. split; [exact Hc|].
  unfold render, renderBody.
  destruct (shouldRenderOn v (applyTransform v (save c))); [|reflexivity].
  destruct (applyLayerStyle_opens_layer v (applyTransform v (save c)))
    as [Hm _].
  destruct (applyLayerStyle v (applyTransform v (save c))) as [v1 c3].
  pose proof (_render_keeps_model v1 c3) as Hm2.
  destruct (_render v1 c3) as [v2 c4]. simpl in *. congruence.
Qed.

(** What the turn of a child draws: the child's own [render], when the child
    is visible, keeps the surface and the kind of the child. *)
Lemma renderTurn_keeps_surface (childView : SkyBaseLayerView) (c : SkCanvas) :
  let turn := if visible childView then render childView c else (childView, c) in
  saved (snd turn) = saved c
  /\ current (snd turn) = current c
  /\ isMask (fst turn) = isMask childView.
Proof.
  destruct (visible childView); simpl.
  - destruct (render_keeps_surface childView c) as (Hs & Hc & Hm).
    unfold isMask. rewrite Hm. auto.
  - auto.
Qed.

Lemma tryClip_keeps_stack (v : SkyBaseLayerView) (c : SkCanvas) :
  saved (snd (tryClip v c)) = saved c.
Proof.
  unfold tryClip. destruct (negb (isMask v)); [reflexivity|].
  pose proof (_tryClip_keeps_stack v
                (concat (localTransform (transform v)) c)) as H.
  destruct (_tryClip v (concat (localTransform (transform v)) c)) as [v1 c1].
  simpl in *. exact H.
Qed.

Lemma closeMaskFor_state (g0 : GState) (stack0 : list (Scope * GState))
    (cur : option SkyBaseLayerView) (childView : SkyBaseLayerView)
    (st : bool * SkCanvas) :
  maskChainState g0 stack0 cur st ->
  maskChainState g0 stack0
    (if isMask childView || shouldBreakMaskChain childView then None else cur)
    (closeMaskFor childView st).
Proof.
  destruct st as [isMasking c]. unfold closeMaskFor.
  destruct cur as [m|]; simpl.
  - intros (Hm & H1); subst isMasking. rewrite andb_true_r.
    destruct (isMask childView || shouldBreakMaskChain childView); simpl.
    + rewrite (restore_pops c ScopeSave g0 stack0 H1). simpl. auto.
    + auto.
  - intros (Hm & H1 & H2); subst isMasking. rewrite andb_false_r. simpl.
    destruct (isMask childView || shouldBreakMaskChain childView); simpl; auto.
Qed.

Lemma renderChild_state (g0 : GState) (stack0 : list (Scope * GState))
    (cur : option SkyBaseLayerView) (childView : SkyBaseLayerView)
    (st : bool * SkCanvas) :
  maskChainState g0 stack0
    (if isMask childView || shouldBreakMaskChain childView then None else cur)
    st ->
  maskChainState g0 stack0 (maskAfter cur [childView])
    (snd (renderChild childView st)).
Proof.
  destruct st as [isMasking c]. unfold renderChild, maskAfter. simpl fold_left.
  destruct (renderTurn_keeps_surface childView c) as (Hs & Hc & Hmask).
  destruct (if visible childView then render childView c else (childView, c))
    as [v1 c1].
  simpl in Hs, Hc, Hmask. rewrite Hmask.
  destruct (isMask childView) eqn:Hi; simpl.
  - intros (_ & H1 & H2).
    pose proof (tryClip_keeps_stack v1 (save c1)) as Ht.
    destruct (tryClip v1 (save c1)) as [v2 c2]. simpl in *.
    rewrite Ht, Hs, Hc, H1, H2. auto.
  - destruct (shouldBreakMaskChain childView); simpl.
    + intros (H0 & H1 & H2). rewrite Hs, Hc. auto.
    + destruct cur as [m|]; simpl.
      * intros (H0 & H1). rewrite Hs. auto.
      * intros (H0 & H1 & H2). rewrite Hs, Hc. auto.
Qed.

Lemma maskAfter_cons (cur : option SkyBaseLayerView)
    (childView : SkyBaseLayerView) (rest : list SkyBaseLayerView) :
  maskAfter cur (childView :: rest) = maskAfter (maskAfter cur [childView]) rest.
Proof. reflexivity. Qed.

Lemma renderChildrenLoop_state (g0 : GState) (stack0 : list (Scope * GState))
    (cs : list SkyBaseLayerView) :
  forall (cur : option SkyBaseLayerView) (st : bool * SkCanvas),
    maskChainState g0 stack0 cur st ->
    maskChainState g0 stack0 (maskAfter cur cs) (snd (renderChildrenLoop cs st)).
Proof.
  induction cs as [|childView rest IH]; intros cur st Hst; [exact Hst|].
  rewrite maskAfter_cons. simpl renderChildrenLoop.
  pose proof (renderChild_state g0 stack0 cur childView _
                (closeMaskFor_state g0 stack0 cur childView st Hst)) as H.
  destruct (renderChild childView (closeMaskFor childView st)) as [v1 st1].
  simpl in H. specialize (IH _ _ H).
  destruct (renderChildrenLoop rest st1) as [rest1 st2]. exact IH.
Qed.

Lemma renderChildrenLoop_app (pre post : list SkyBaseLayerView)
    (childView : SkyBaseLayerView) :
  forall st : bool * SkCanvas,
    renderChildrenLoop (pre ++ childView :: post) st
    = let '(pre1, st1) := renderChildrenLoop pre st in
      let '(childView1, st2) := renderChild childView (closeMaskFor childView st1) in
      let '(post1, st3) := renderChildrenLoop post st2 in
      (pre1 ++ childView1 :: post1, st3).
Proof.
  induction pre as [|a pre IH]; intros st; simpl.
  - reflexivity.
  - destruct (renderChild a (closeMaskFor a st)) as [a1 sta].
    rewrite IH.
    destruct (renderChildrenLoop pre sta) as [pre1 st1].
    destruct (renderChild childView (closeMaskFor childView st1)) as [c1 st2].
    destruct (renderChildrenLoop post st2) as [post1 st3]. reflexivity.
Qed.

(** Siblings that are neither masks nor chain breakers leave the flag of the
    loop, the matrix, the clip and the save stack as they are. *)
Lemma renderChildrenLoop_plain (between : list SkyBaseLayerView) :
  Forall (fun k => isMask k = false /\ shouldBreakMaskChain k = false) between ->
  forall (isMasking : bool) (c : SkCanvas),
    fst (snd (renderChildrenLoop between (isMasking, c))) = isMasking
    /\ current (snd (snd (renderChildrenLoop between (isMasking, c)))) = current c
    /\ saved (snd (snd (renderChildrenLoop between (isMasking, c)))) = saved c.
Proof.
  induction 1 as [|k l [Hk1 Hk2] _ IH]; intros isMasking c; [simpl; auto|].
  simpl renderChildrenLoop. unfold closeMaskFor, renderChild.
  rewrite Hk1, Hk2. simpl.
  destruct (renderTurn_keeps_surface k c) as (Hs & Hc & Hmask).
  destruct (if visible k then render k c else (k, c)) as [v1 c1].
  simpl in Hs, Hc, Hmask. rewrite Hmask, Hk1.
  specialize (IH isMasking c1).
  destruct (renderChildrenLoop l (isMasking, c1)) as [l1 st2].
  simpl in *. rewrite <- Hs, <- Hc. exact IH.
Qed.

Lemma maskAfter_app (cur : option SkyBaseLayerView)
    (l1 l2 : list SkyBaseLayerView) :
  maskAfter cur (l1 ++ l2) = maskAfter (maskAfter cur l1) l2.
Proof. unfold maskAfter. apply fold_left_app. Qed.

Lemma maskAfter_plain (cur : option SkyBaseLayerView)
    (between : list SkyBaseLayerView) :
  Forall (fun k => isMask k = false /\ shouldBreakMaskChain k = false) between ->
  maskAfter cur between = cur.
Proof.
  intros H. revert cur. induction H as [|k l [Hk1 Hk2] _ IH]; intros cur.
  - reflexivity.
  - rewrite maskAfter_cons. unfold maskAfter at 2. simpl.
    rewrite Hk1, Hk2. apply IH.
Qed.

(** The open mask after a run of siblings is the mask followed only by
    siblings that are neither masks nor chain breakers. *)
Lemma maskAfter_Some_iff (cs : list SkyBaseLayerView) (m : SkyBaseLayerView) :
  maskAfter None cs = Some m
  <-> exists before between,
        cs = before ++ m :: between
        /\ isMask m = true
        /\ Forall (fun k => isMask k = false /\ shouldBreakMaskChain k = false)
                  between.
Proof.
  split.
  - induction cs as [|k cs IH] using rev_ind; [discriminate|].
    rewrite maskAfter_app. unfold maskAfter at 1. simpl.
    destruct (isMask k) eqn:Hk.
    + intros [= <-]. exists cs, []. auto.
    + destruct (shouldBreakMaskChain k) eqn:Hb; [discriminate|].
      intros H. destruct (IH H) as (before & between & -> & Hm & Hall).
      exists before, (between ++ [k]). rewrite <- app_assoc. simpl.
      split; [reflexivity|]. split; [exact Hm|].
      apply Forall_app. split; [exact Hall|]. constructor; auto.
  - intros (before & between & -> & Hm & Hall).
    rewrite maskAfter_app, maskAfter_cons.
    unfold maskAfter at 2. simpl. rewrite Hm. apply maskAfter_plain, Hall.
Qed.

Lemma governingMask_Some_iff (pre : list SkyBaseLayerView)
    (childView m : SkyBaseLayerView) :
  governingMask pre childView = Some m
  <-> exists before between,
        pre = before ++ m :: between
        /\ isMask m = true
        /\ Forall (fun k => isMask k = false /\ shouldBreakMaskChain k = false)
                  (between ++ [childView]).
Proof.
  unfold governingMask. split.
  - destruct (isMask childView) eqn:Hi; [discriminate|].
    destruct (shouldBreakMaskChain childView) eqn:Hb; [discriminate|]. simpl.
    intros H. apply maskAfter_Some_iff in H.
    destruct H as (before & between & -> & Hm & Hall).
    exists before, between. split; [reflexivity|]. split; [exact Hm|].
    apply Forall_app. split; [exact Hall|]. constructor; auto.
  - intros (before & between & -> & Hm & Hall).
    apply Forall_app in Hall. destruct Hall as [Hall Hc].
    inversion Hc as [|? ? [Hi Hb] _]; subst. rewrite Hi, Hb. simpl.
    apply maskAfter_Some_iff. eauto.
Qed.

(** A child under no mask is rendered on the surface the loop started on. *)
Lemma renderEntry_unmasked (pre : list SkyBaseLayerView)
    (childView : SkyBaseLayerView) (c : SkCanvas) :
  governingMask pre childView = None ->
  current (renderEntry pre childView c) = current c
  /\ saved (renderEntry pre childView c) = saved c.
Proof.
  unfold renderEntry, governingMask.
  assert (H0 : maskChainState (current c) (saved c) None (false, c))
    by (simpl; auto).
  pose proof (renderChildrenLoop_state (current c) (saved c) pre None _ H0) as H1.
  pose proof (closeMaskFor_state (current c) (saved c) _ childView _ H1) as H2.
  destruct (closeMaskFor childView (snd (renderChildrenLoop pre (false, c))))
    as [isMasking c1].
  intros Hg. rewrite Hg in H2. destruct H2 as (_ & Hc & Hs). auto.
Qed.

(** A child under the mask [m] is rendered inside the save scope opened for
    [m], with the matrix and clip that [tryClip] of [m] left there. *)
Lemma renderEntry_masked (before between : list SkyBaseLayerView)
    (m childView : SkyBaseLayerView) (c : SkCanvas) :
  isMask m = true ->
  Forall (fun k => isMask k = false /\ shouldBreakMaskChain k = false)
         (between ++ [childView]) ->
  let entryM := renderEntry before m c in
  let turn := if visible m then render m entryM else (m, entryM) in
  current entryM = current c
  /\ saved entryM = saved c
  /\ saved (renderEntry (before ++ m :: between) childView c)
     = (ScopeSave, current c) :: saved c
  /\ current (renderEntry (before ++ m :: between) childView c)
     = current (snd (tryClip (fst turn) (save (snd turn)))).
Proof.
  intros Hm Hall entryM turn.
  apply Forall_app in Hall. destruct Hall as [Hall Hc].
  inversion Hc as [|? ? [Hi Hb] _]; subst.
  assert (HeM : current entryM = current c /\ saved entryM = saved c).
  { apply renderEntry_unmasked. unfold governingMask. rewrite Hm. reflexivity. }
  destruct HeM as [HeC HeS].
  split; [exact HeC|]. split; [exact HeS|].
  destruct (renderTurn_keeps_surface m entryM) as (Hs & Hcu & Hmask).
  fold turn in Hs, Hcu, Hmask.
  pose proof (tryClip_keeps_stack (fst turn) (save (snd turn))) as Ht.
  unfold renderEntry at 1 2. rewrite renderChildrenLoop_app.
  subst turn entryM. unfold renderEntry in *.
  destruct (renderChildrenLoop before (false, c)) as [b1 stb]. simpl snd in *.
  destruct (closeMaskFor m stb) as [fl0 cM]. simpl snd in *.
  unfold renderChild.
  destruct (if visible m then render m cM else (m, cM)) as [m1 c1].
  simpl fst in *. simpl snd in *. rewrite Hmask, Hm.
  destruct (tryClip m1 (save c1)) as [m2 c2]. simpl snd in *.
  destruct (renderChildrenLoop_plain between Hall true c2) as (Hf & Hpc & Hps).
  destruct (renderChildrenLoop between (true, c2)) as [bt1 [fl cY]].
  simpl in Hf, Hpc, Hps. simpl snd.
  unfold closeMaskFor. rewrite Hi, Hb. simpl.
  rewrite Hpc, Hps, Ht. simpl. rewrite Hs, Hcu, HeC, HeS. auto.
Qed.

Lemma renderChildren_keeps_surface (this : SkyBaseLayerView) (c : SkCanvas) :
  saved (snd (renderChildren this c)) = saved c
  /\ current (snd (renderChildren this c)) = current c.
Proof.
  unfold renderChildren.
  assert (H0 : maskChainState (current c) (saved c) None (false, c))
    by (simpl; auto).
  pose proof (renderChildrenLoop_state (current c) (saved c) (children this)
                None _ H0) as H1.
  destruct (renderChildrenLoop (children this) (false, c))
    as [children1 [isMasking c1]].
  destruct (maskAfter None (children this)) as [m|]; simpl in *.
  - destruct H1 as (-> & Hs).
    rewrite (restore_pops c1 ScopeSave (current c) (saved c) Hs). simpl. auto.
  - destruct H1 as (-> & Hc & Hs). auto.
Qed.

(** [renderChildren], written around the turn of one child. *)
Lemma renderChildren_turn (this : SkyBaseLayerView) (c : SkCanvas)
    (pre post : list SkyBaseLayerView) (childView : SkyBaseLayerView) :
  children this = pre ++ childView :: post ->
  renderChildren this c
  = (let '(pre1, st1) := renderChildrenLoop pre (false, c) in
     let entry := renderEntry pre childView c in
     let '(childView1, c1) :=
       if visible childView then render childView entry
       else (childView, entry) in
     let '(childView2, st2) :=
       if isMask childView1
       then (let '(v, c2) := tryClip childView1 (save c1) in (v, (true, c2)))
       else (childView1, (fst (closeMaskFor childView st1), c1)) in
     let '(post1, (isMasking, c3)) := renderChildrenLoop post st2 in
     (set_children this (pre1 ++ childView2 :: post1),
      if isMasking then restore c3 else c3)).
Proof.
  intros Hch. unfold renderChildren. rewrite Hch, renderChildrenLoop_app.
  unfold renderEntry.
  destruct (renderChildrenLoop pre (false, c)) as [pre1 st1]. simpl snd.
  destruct (closeMaskFor childView st1) as [isMasking0 c0]. simpl snd. simpl fst.
  unfold renderChild.
  destruct (if visible childView then render childView c0 else (childView, c0))
    as [childView1 c1].
  destruct (isMask childView1).
  - destruct (tryClip childView1 (save c1)) as [v c2].
    destruct (renderChildrenLoop post (true, c2)) as [post1 [isMasking c3]].
    reflexivity.
  - destruct (renderChildrenLoop post (isMasking0, c1)) as [post1 [isMasking c3]].
    reflexivity.
Qed.

(** C6: in [renderChildren], provided the drawing routines hand back the
    save stack as they found it and keep the model and the resolved paint of
    the view, the turn of each child is: close the open mask scope when the
    child is a mask or breaks the chain, render the child when it is visible,
    and when it is a mask open a save scope and let [tryClip] of the mask work
    in it.  A child under no mask is rendered with the matrix, clip and save
    stack the loop was entered with; so is every mask.  A child under the
    mask [m] is rendered inside the save scope of [m] alone, with the matrix
    and clip that [tryClip] of [m] left in that scope: [m] is the mask such
    that the child comes after [m] and no sibling after [m], up to and
    including the child, is a mask or breaks the chain.  After the last child
    the open mask scope, if any, is closed: the surface has the save stack,
    matrix and clip it was entered with.  For
    [[mask1; plain1; plain2; mask2; plain3]]: [plain1] and [plain2] are
    rendered with what [tryClip] of [mask1] left, [plain3] with what [tryClip]
    of [mask2] left, the masks themselves on the surface as entered. *)
Theorem mask_clips_siblings_up_to_next_mask_or_break
    (this : SkyBaseLayerView) (c : SkCanvas) :
  (forall pre childView post,
     children this = pre ++ childView :: post ->
     let entry := renderEntry pre childView c in
     renderChildren this c
     = (let '(pre1, st1) := renderChildrenLoop pre (false, c) in
        let '(childView1, c1) :=
          if visible childView then render childView entry
          else (childView, entry) in
        let '(childView2, st2) :=
          if isMask childView1
          then (let '(v, c2) := tryClip childView1 (save c1) in (v, (true, c2)))
          else (childView1, (fst (closeMaskFor childView st1), c1)) in
        let '(post1, (isMasking, c3)) := renderChildrenLoop post st2 in
        (set_children this (pre1 ++ childView2 :: post1),
         if isMasking then restore c3 else c3))
     /\ (governingMask pre childView = None ->
         current entry = current c /\ saved entry = saved c)
     /\ (forall m before between,
           pre = before ++ m :: between ->
           isMask m = true ->
           Forall (fun k => isMask k = false /\ shouldBreakMaskChain k = false)
                  (between ++ [childView]) ->
           let entryM := renderEntry before m c in
           let turn := if visible m then render m entryM else (m, entryM) in
           current entryM = current c
           /\ saved entryM = saved c
           /\ saved entry = (ScopeSave, current c) :: saved c
           /\ current entry
              = current (snd (tryClip (fst turn) (save (snd turn)))))
     /\ forall m,
          governingMask pre childView = Some m
          <-> exists before between,
                pre = before ++ m :: between
                /\ isMask m = true
                /\ Forall (fun k => isMask k = false
                                    /\ shouldBreakMaskChain k = false)
                          (between ++ [childView]))
  /\ saved (snd (renderChildren this c)) = saved c
  /\ current (snd (renderChildren this c)) = current c
  /\ (forall (t : Transform) (f : Rect.t),
        let mask1 := siblingView "mask1" f true false t in
        let plain1 := siblingView "plain1" f false false t in
        let plain2 := siblingView "plain2" f false false t in
        let mask2 := siblingView "mask2" f true false t in
        let plain3 := siblingView "plain3" f false false t in
        let entry1 := renderEntry [] mask1 c in
        let clipped1 :=
          snd (tryClip (fst (render mask1 entry1))
                       (save (snd (render mask1 entry1)))) in
        let entry2 := renderEntry [mask1; plain1; plain2] mask2 c in
        let clipped2 :=
          snd (tryClip (fst (render mask2 entry2))
                       (save (snd (render mask2 entry2)))) in
        (current entry1 = current c /\ saved entry1 = saved c)
        /\ (current (renderEntry [mask1] plain1 c) = current clipped1
            /\ saved (renderEntry [mask1] plain1 c)
               = (ScopeSave, current c) :: saved c)
        /\ (current (renderEntry [mask1; plain1] plain2 c) = current clipped1
            /\ saved (renderEntry [mask1; plain1] plain2 c)
               = (ScopeSave, current c) :: saved c)
        /\ (current entry2 = current c /\ saved entry2 = saved c)
        /\ (current (renderEntry [mask1; plain1; plain2; mask2] plain3 c)
            = current clipped2
            /\ saved (renderEntry [mask1; plain1; plain2; mask2] plain3 c)
               = (ScopeSave, current c) :: saved c)).
Proof.
  split; [|split; [|split]].
  - intros pre childView post Hch entry. split; [|split; [|split]].
    + rewrite (renderChildren_turn this c pre post childView Hch).
      destruct (renderChildrenLoop pre (false, c)) as [pre1 st1]. reflexivity.
    + apply renderEntry_unmasked.
    + intros m before between -> Hm Hall.
      apply (renderEntry_masked before between m childView c Hm Hall).
    + intros m. apply governingMask_Some_iff.
  - apply renderChildren_keeps_surface.
  - apply renderChildren_keeps_surface.
  - intros t f mask1 plain1 plain2 mask2 plain3 entry1 clipped1 entry2 clipped2.
    assert (Hp : forall n, isMask (siblingView n f false false t) = false
                           /\ shouldBreakMaskChain (siblingView n f false false t)
                              = false)
      by (intros n; split; reflexivity).
    pose proof (renderEntry_masked [] [] mask1 plain1 c eq_refl
                  (Forall_cons _ (Hp _) (Forall_nil _))) as (H1 & H2 & H3 & H4).
    pose proof (renderEntry_masked [] [plain1] mask1 plain2 c eq_refl
                  (Forall_cons _ (Hp _) (Forall_cons _ (Hp _) (Forall_nil _))))
      as (_ & _ & H5 & H6).
    pose proof (renderEntry_masked [mask1; plain1; plain2] [] mask2 plain3 c
                  eq_refl (Forall_cons _ (Hp _) (Forall_nil _)))
      as (H7 & H8 & H9 & H10).
    repeat split; assumption.
Qed.

End RenderScopes.

(** ** Hit-testing *)

Lemma firstSome_app {A B : Type} (f : A -> option B) (l1 l2 : list A) :
  firstSome f (l1 ++ l2)
  = match firstSome f l1 with
    | Some b => Some b
    | None => firstSome f l2
    end.
Proof.
  induction l1 as [|a l1 IH]; simpl; [reflexivity|].
  destruct (f a); [reflexivity|exact IH].
Qed.

Lemma firstSome_In {A B : Type} (f : A -> option B) (l : list A) (b : B) :
  firstSome f l = Some b -> exists a, In a l /\ f a = Some b.
Proof.
  induction l as [|a l IH]; simpl; [discriminate|].
  destruct (f a) eqn:E.
  - intros [= <-]. eauto.
  - intros H. destruct (IH H) as (a' & Hin & Hf). eauto.
Qed.

Lemma findView_unfold (pt : Point.t) (this : SkyBaseLayerView) :
  findView pt this
  = if containsPoint this pt then
      Some match firstSome (tryChild pt) (rev (children this)) with
           | Some view => view
           | None => this
           end
    else None.
Proof.
  destruct this as [m cs t sf lp rq cq]. simpl.
  destruct (containsPoint _ pt); [|reflexivity].
  match goal with
  | |- match ?scan cs with _ => _ end = _ =>
    assert (Hscan : forall l, scan l = firstSome (tryChild pt) (rev l))
  end.
  { induction l as [|child rest IH]; [reflexivity|].
    simpl rev. rewrite firstSome_app, <- IH. simpl.
    unfold tryChild.
    destruct (interactive child), (findView pt child); reflexivity. }
  rewrite Hscan. destruct (firstSome (tryChild pt) (rev cs)); reflexivity.
Qed.

Lemma findView_Some_contains (pt : Point.t) (this r : SkyBaseLayerView) :
  findView pt this = Some r -> containsPoint this pt = true.
Proof.
  rewrite findView_unfold. destruct (containsPoint this pt); [auto|discriminate].
Qed.

(** Whatever [findView] returns contains the point and is reached through
    interactive children that contain it. *)
Lemma findView_result (pt : Point.t) (this : SkyBaseLayerView) :
  forall r, findView pt this = Some r ->
            containsPoint r pt = true /\ reachedThroughHits pt this r.
Proof.
  induction this as [this IH] using SkyBaseLayerView_tree_ind.
  intros r Hr. pose proof (findView_Some_contains pt this r Hr) as Hc.
  rewrite findView_unfold, Hc in Hr.
  destruct (firstSome (tryChild pt) (rev (children this))) as [view|] eqn:Hf.
  - injection Hr as <-.
    apply firstSome_In in Hf. destruct Hf as (child & Hin & Hchild).
    apply in_rev in Hin. unfold tryChild in Hchild.
    destruct (interactive child) eqn:Hi; [|discriminate].
    rewrite Forall_forall in IH.
    destruct (IH child Hin view Hchild) as [Hcv Hreach].
    split; [exact Hcv|].
    eapply reached_below; eauto using findView_Some_contains.
  - injection Hr as <-. split; [exact Hc|constructor].
Qed.

Lemma findViewVisits_fst (pt : Point.t) (this : SkyBaseLayerView) :
  fst (findViewVisits pt this) = findView pt this.
Proof.
  induction this as [this IH] using SkyBaseLayerView_tree_ind.
  destruct this as [m cs t sf lp rq cq]. simpl in *.
  destruct (containsPoint _ pt); [|reflexivity].
  match goal with
  | |- fst (let '(_, _) := ?scanV cs in _) = match ?scan cs with _ => _ end =>
    assert (Hscan : fst (scanV cs) = scan cs)
  end.
  { induction IH as [|child rest Hchild _ IHrest]; [reflexivity|].
    simpl. rewrite <- IHrest.
    match goal with |- context [let '(_, _) := ?e in _] => destruct e as [found visits] end.
    simpl. destruct found; [reflexivity|].
    destruct (interactive child); [|reflexivity].
    rewrite <- Hchild. destruct (findViewVisits pt child). reflexivity. }
  rewrite <- Hscan.
  match goal with |- context [let '(_, _) := ?e in _] => destruct e as [found visits] end.
  reflexivity.
Qed.

Lemma scanVisits_app (pt : Point.t) (l1 l2 : list SkyBaseLayerView) :
  scanVisits pt (l1 ++ l2)
  = scanVisits pt l1
    ++ match firstSome (tryChild pt) l1 with
       | Some _ => []
       | None => scanVisits pt l2
       end.
Proof.
  induction l1 as [|child l1 IH]; simpl; [reflexivity|].
  unfold tryChild at 1.
  destruct (interactive child); [|exact IH].
  rewrite findViewVisits_fst.
  destruct (findView pt child).
  - rewrite !app_nil_r. reflexivity.
  - rewrite IH, app_assoc. reflexivity.
Qed.

Lemma findViewVisits_snd (pt : Point.t) (this : SkyBaseLayerView) :
  snd (findViewVisits pt this)
  = if containsPoint this pt
    then this :: scanVisits pt (rev (children this))
    else [this].
Proof.
  destruct this as [m cs t sf lp rq cq]. simpl.
  destruct (containsPoint _ pt); [|reflexivity].
  match goal with
  | |- snd (let '(_, _) := ?scanV cs in _) = _ =>
    assert (Hscan : forall l,
               scanV l = (firstSome (tryChild pt) (rev l), scanVisits pt (rev l)))
  end.
  { induction l as [|child rest IH]; [reflexivity|].
    rewrite IH. simpl rev. rewrite firstSome_app, scanVisits_app.
    destruct (firstSome (tryChild pt) (rev rest)).
    - rewrite app_nil_r. reflexivity.
    - simpl. unfold tryChild.
      destruct (interactive child); [|rewrite app_nil_r; reflexivity].
      rewrite <- findViewVisits_fst.
      destruct (findViewVisits pt child) as [f1 v1]. simpl.
      destruct f1; rewrite ?app_nil_r; reflexivity. }
  rewrite Hscan. reflexivity.
Qed.

(** C7: [findView] answers nothing when the point is outside the node's
    frame, and then enters no child; otherwise it tries the children from the
    last one to the first, entering only interactive ones, answers the first
    answer it gets from them, and the node itself when none answers.  Its
    answer contains the point and is reached through interactive children
    that contain it. *)
Theorem findView_depth_first_reverse_order
    (pt : Point.t) (this : SkyBaseLayerView) :
  findView pt this
  = (if containsPoint this pt then
       Some match firstSome
                    (fun child =>
                       if interactive child then findView pt child else None)
                    (rev (children this)) with
            | Some view => view
            | None => this
            end
     else None)
  /\ fst (findViewVisits pt this) = findView pt this
  /\ snd (findViewVisits pt this)
     = (if containsPoint this pt
        then this :: scanVisits pt (rev (children this))
        else [this])
  /\ (forall r, findView pt this = Some r ->
                containsPoint r pt = true /\ reachedThroughHits pt this r).
Proof.
  split; [apply findView_unfold|].
  split; [apply findViewVisits_fst|].
  split; [apply findViewVisits_snd|].
  apply findView_result.
Qed.

Lemma onFrameEdge_not_contained (this : SkyBaseLayerView) (pt : Point.t) :
  onFrameEdge this pt = true -> containsPoint this pt = false.
Proof.
  unfold onFrameEdge, containsPoint. cbv zeta.
  intros H. apply orb_true_iff in H. destruct H as [H|H];
    [apply orb_true_iff in H; destruct H as [H|H];
     [apply orb_true_iff in H; destruct H as [H|H]|]|];
    apply eqb_true_ltb in H; destruct H as [H1 H2];
    rewrite ?H1, ?H2, ?andb_false_r; reflexivity.
Qed.

(** C10: the four comparisons of [containsPoint] are strict: a point whose
    local image has [x = 0], [y = 0], [x = frame.width] or
    [y = frame.height] is not contained, so no view that [findView] answers
    has the point on an edge of its frame. *)
Theorem containsPoint_excludes_frame_edges
    (this : SkyBaseLayerView) (pt : Point.t) :
  let local := applyInverse (worldTransform (transform this)) pt in
  (((Point.x local =? 0) = true \/ (Point.y local =? 0) = true
    \/ (Point.x local =? Rect.width (frame this)) = true
    \/ (Point.y local =? Rect.height (frame this)) = true) ->
   containsPoint this pt = false)
  /\ (forall r, findView pt this = Some r -> onFrameEdge r pt = false).
Proof.
  intros local. split.
  - intros H. apply onFrameEdge_not_contained. unfold onFrameEdge. cbv zeta.
    fold local. destruct H as [-> | [-> | [-> | ->]]];
      rewrite ?orb_true_r; reflexivity.
  - intros r Hr. destruct (findView_result pt this r Hr) as [Hc _].
    destruct (onFrameEdge r pt) eqn:He; [|reflexivity].
    rewrite (onFrameEdge_not_contained r pt He) in Hc. discriminate.
Qed.

(** ** Further properties of the instance scaling *)

Lemma calcInstanceChildScale_unscaled_parent (parent : option SkyBaseLayerView) :
  match parent with
  | Some p => isFrameScaled p = false
  | None => True
  end ->
  forall this, calcInstanceChildScale parent this = None.
Proof.
  destruct parent as [p|]; [|reflexivity].
  intros Hp this. unfold calcInstanceChildScale. rewrite Hp. reflexivity.
Qed.

Lemma commonLayoutSelf_set_scaledFrame (parent : option SkyBaseLayerView)
    (this : SkyBaseLayerView) (sf : option Rect.t) :
  commonLayoutSelf parent (set_scaledFrame this sf) = commonLayoutSelf parent this.
Proof. reflexivity. Qed.

(** X1: [commonLayoutSelf] starts from the model frame: the scaled frame a
    view carries from an earlier pass has no influence on the result, and
    laying out the result again under the same parent gives the same view. *)
Theorem commonLayoutSelf_forgets_old_scaledFrame
    (parent : option SkyBaseLayerView) (this : SkyBaseLayerView) :
  (forall sf, commonLayoutSelf parent (set_scaledFrame this sf)
              = commonLayoutSelf parent this)
  /\ (forall this1, commonLayoutSelf parent this = Some this1 ->
                    commonLayoutSelf parent this1 = Some this1).
Proof.
  split; [intros sf; apply commonLayoutSelf_set_scaledFrame|].
  intros this1 H.
  assert (Hshape : exists sf, this1 = set_scaledFrame this sf).
  { revert H. unfold commonLayoutSelf.
    destruct (calcInstanceChildScale parent (set_scaledFrame this None));
      [destruct (calcOffsetAfterScale parent _ _ _); [|discriminate]|];
      intros [= <-]; eexists; reflexivity. }
  destruct Hshape as [sf ->].
  rewrite commonLayoutSelf_set_scaledFrame. exact H.
Qed.

(** X2: a child whose left edge is snapped keeps its [x] through
    [commonLayoutSelf], whatever the parent and the other flags; likewise
    [y] when the top edge is snapped. *)
Theorem commonLayoutSelf_keeps_snapped_leading_edge
    (parent : option SkyBaseLayerView) (this this1 : SkyBaseLayerView) :
  commonLayoutSelf parent this = Some this1 ->
  (SkyBaseLayer.snapLeft (model this) = true ->
   Rect.x (frame this1) = Rect.x (intrinsicFrame this))
  /\ (SkyBaseLayer.snapTop (model this) = true ->
      Rect.y (frame this1) = Rect.y (intrinsicFrame this)).
Proof.
  unfold commonLayoutSelf.
  destruct (calcInstanceChildScale parent (set_scaledFrame this None))
    as [info|] eqn:Hinfo.
  - destruct parent as [p|]; [|discriminate].
    unfold calcOffsetAfterScale. intros [= <-]. simpl.
    split; intros ->; simpl.
    + destruct (SkyBaseLayer.snapRight (model this)); reflexivity.
    + destruct (SkyBaseLayer.snapBottom (model this)); reflexivity.
  - intros [= <-]. split; reflexivity.
Qed.

(** X3: with a scaled parent, a child with only its leading edge snapped on
    an axis that is not fixed gets
    [scale = (masterFrame.size * instanceScale - childFrame.origin)
             / (masterFrame.size - childFrame.origin)],
    and [calcOffsetAfterScale] returns the old origin on that axis. *)
Theorem leading_edge_snapped_scale_and_offset (p this : SkyBaseLayerView)
    (newBounds oldBounds : Rect.t) :
  isFrameScaled p = true ->
  let m := model this in
  let instanceFrame := frame p in
  let masterFrame := intrinsicFrame p in
  let childFrame := frame this in
  let instanceScaleX := Rect.width instanceFrame / Rect.width masterFrame in
  let instanceScaleY := Rect.height instanceFrame / Rect.height masterFrame in
  exists info off,
    calcInstanceChildScale (Some p) this = Some info
    /\ calcOffsetAfterScale (Some p) this newBounds oldBounds = Some off
    /\ (SkyBaseLayer.snapLeft m = true -> SkyBaseLayer.snapRight m = false ->
        SkyBaseLayer.fixedWidth m = false ->
        scaleX info
        = (Rect.width masterFrame * instanceScaleX - Rect.x childFrame)
          / (Rect.width masterFrame - Rect.x childFrame)
        /\ newX off = Rect.x oldBounds)
    /\ (SkyBaseLayer.snapTop m = true -> SkyBaseLayer.snapBottom m = false ->
        SkyBaseLayer.fixedHeight m = false ->
        scaleY info
        = (Rect.height masterFrame * instanceScaleY - Rect.y childFrame)
          / (Rect.height masterFrame - Rect.y childFrame)
        /\ newY off = Rect.y oldBounds).
Proof.
  intros Hs m instanceFrame masterFrame childFrame isx isy.
  unfold calcInstanceChildScale, calcOffsetAfterScale. rewrite Hs. simpl.
  do 2 eexists. split; [reflexivity|]. split; [reflexivity|]. simpl. fold m.
  split; intros -> -> ->; split; reflexivity.
Qed.

(** X4: scaling does not start below a container that is not scaled: when
    the parent is absent or shown at its intrinsic size, and the child's own
    width and height are numbers, the child leaves [commonLayoutSelf] without
    a scaled frame and is itself not scaled, so none of its own children gets
    an override from it. *)
Theorem commonLayoutSelf_unscaled_parent_unscaled_child
    (parent : option SkyBaseLayerView) (this : SkyBaseLayerView) :
  match parent with
  | Some p => isFrameScaled p = false
  | None => True
  end ->
  isNumber (Rect.width (intrinsicFrame this)) = true ->
  isNumber (Rect.height (intrinsicFrame this)) = true ->
  exists this1,
    commonLayoutSelf parent this = Some this1
    /\ scaledFrame this1 = None
    /\ isFrameScaled this1 = false
    /\ forall child, calcInstanceChildScale (Some this1) child = None.
Proof.
  intros Hp Hw Hh. unfold commonLayoutSelf.
  rewrite (calcInstanceChildScale_unscaled_parent parent Hp).
  eexists. split; [reflexivity|]. split; [reflexivity|].
  assert (Hs : isFrameScaled (set_scaledFrame this None) = false).
  { unfold isFrameScaled, frame, intrinsicFrame. simpl.
    unfold isNumber, intrinsicFrame in Hw, Hh. rewrite Hw, Hh. reflexivity. }
  split; [exact Hs|].
  intros child.
  apply (calcInstanceChildScale_unscaled_parent (Some (set_scaledFrame this None))).
  exact Hs.
Qed.

(** ** Further properties of the layer paint and of render *)

Lemma set_layerPaint_same (this : SkyBaseLayerView) :
  set_layerPaint this (layerPaint this) = this.
Proof. destruct this. reflexivity. Qed.

Lemma buildLayerPaint_writes_paint (this : SkyBaseLayerView) :
  exists lp, buildLayerPaint this = set_layerPaint this lp /\ lp <> PaintUndefined.
Proof.
  unfold buildLayerPaint.
  destruct (SkyBaseLayer.style (model this)) as [st|];
    [|eexists; split; [reflexivity|discriminate]].
  repeat match goal with
         | |- context [let '(_, _) := ?e in _] => destruct e
         end.
  match goal with |- context [if ?b then _ else _] => destruct b end;
    eexists; (split; [reflexivity|discriminate]).
Qed.

(** X5: [buildLayerPaint] writes the paint cache only, never leaves it
    undefined, and leaves a paint exactly when the style asks for an effect:
    an opacity other than 1, a blend mode other than [Src], an enabled first
    shadow on a view that requires a layer drop shadow, or an enabled
    Gaussian blur. *)
Theorem buildLayerPaint_paint_iff_effect (this : SkyBaseLayerView) :
  exists lp,
    buildLayerPaint this = set_layerPaint this lp
    /\ lp <> PaintUndefined
    /\ truthy lp
       = match SkyBaseLayer.style (model this) with
         | None => false
         | Some st =>
           match contextSettings st with
           | Some cs =>
             negb (opacity cs =? 1) || negb (BlendMode_eqb (blendMode cs) Src)
           | None => false
           end
           || (requireLayerDropShadow this
               && match shadows st with
                  | Some (sh :: _) => shadowIsEnabled sh
                  | _ => false
                  end)
           || match blur st with
              | Some b =>
                blurIsEnabled b
                && match blurType b with Gaussian => true | _ => false end
              | None => false
              end
         end.
Proof.
  unfold buildLayerPaint.
  destruct (SkyBaseLayer.style (model this)) as [st|];
    [|eexists; split; [reflexivity|split; [discriminate|reflexivity]]].
  destruct (requireLayerDropShadow this);
    (destruct (contextSettings st) as [cs|];
     [destruct (negb (opacity cs =? 1)),
               (negb (BlendMode_eqb (blendMode cs) Src))|]);
    (destruct (shadows st) as [[|sh shs]|];
     [| destruct (shadowIsEnabled sh) |]);
    (destruct (blur st) as [b|];
     [destruct (blurIsEnabled b), (blurType b)|]);
    simpl; eexists; (split; [reflexivity|split; [discriminate|reflexivity]]).
Qed.

(** X6: the paint [buildLayerPaint] leaves carries the opacity only if it
    is not 1, the blend mode only if it is not [Src], and one image filter
    at most: the blur when an enabled Gaussian blur is present, which then
    replaces the drop shadow; otherwise the drop shadow of the first shadow
    when the view requires one and it is enabled; motion, zoom and background
    blurs add no filter. *)
Theorem buildLayerPaint_effects (this : SkyBaseLayerView) (st : SkyStyle)
    (p : SkPaint) :
  SkyBaseLayer.style (model this) = Some st ->
  layerPaint (buildLayerPaint this) = PaintSome p ->
  alphaf p
  = match contextSettings st with
    | Some cs => if opacity cs =? 1 then None else Some (opacity cs)
    | None => None
    end
  /\ paintBlendMode p
     = match contextSettings st with
       | Some cs =>
         if BlendMode_eqb (blendMode cs) Src then None else Some (blendMode cs)
       | None => None
       end
  /\ imageFilter p
     = let shadowFilter :=
         match shadows st with
         | Some (sh :: _) =>
           if requireLayerDropShadow this && shadowIsEnabled sh
           then Some (MakeDropShadow (offsetX sh) (offsetY sh)
                        (blurRadius sh / 2) (blurRadius sh / 2) (color sh))
           else None
         | _ => None
         end in
       match blur st with
       | Some b =>
         if blurIsEnabled b then
           match blurType b with
           | Gaussian => Some (MakeBlur (radius b) (radius b))
           | Motion | Zoom | Background => shadowFilter
           end
         else shadowFilter
       | None => shadowFilter
       end.
Proof.
  intros Hst. unfold buildLayerPaint. rewrite Hst.
  destruct (contextSettings st) as [cs|];
    [destruct (opacity cs =? 1), (BlendMode_eqb (blendMode cs) Src)|];
    (destruct (shadows st) as [[|sh shs]|];
     [| destruct (requireLayerDropShadow this), (shadowIsEnabled sh) |]);
    (destruct (blur st) as [b|];
     [destruct (blurIsEnabled b), (blurType b)|]);
    simpl; intros [= <-]; repeat split; reflexivity.
Qed.

Lemma applyLayerStyle_fst (this : SkyBaseLayerView) (c : SkCanvas) :
  fst (applyLayerStyle this c)
  = match layerPaint this with
    | PaintUndefined => buildLayerPaint this
    | _ => this
    end.
Proof.
  unfold applyLayerStyle. cbv zeta.
  destruct (layerPaint this) eqn:E.
  - destruct (layerPaint (buildLayerPaint this)); reflexivity.
  - rewrite E. reflexivity.
  - rewrite E. reflexivity.
Qed.

(** X7: [applyLayerStyle] changes nothing of the view but the paint cache,
    and fills that cache once: a view whose paint is resolved is left as it
    is, an unresolved one gets the paint of [buildLayerPaint], the paint is
    resolved afterwards, so that applying the style again changes nothing;
    a layer is opened on the surface exactly when the resolved paint is
    present.  [render] hands that view to the drawing routine when the node
    is not rejected, and leaves the view as it was when it is. *)
Theorem applyLayerStyle_fills_paint_cache_once
    (this : SkyBaseLayerView) (c : SkCanvas) :
  let this1 := fst (applyLayerStyle this c) in
  (exists lp, this1 = set_layerPaint this lp /\ lp <> PaintUndefined)
  /\ (layerPaint this <> PaintUndefined -> this1 = this)
  /\ (layerPaint this = PaintUndefined -> this1 = buildLayerPaint this)
  /\ (forall c1, fst (applyLayerStyle this1 c1) = this1)
  /\ snd (applyLayerStyle this c)
     = match layerPaint this1 with
       | PaintSome p => saveLayer p c
       | _ => c
       end
  /\ fst (render this c)
     = let c2 := applyTransform this (save c) in
       if shouldRenderOn this c2
       then fst (_render (fst (applyLayerStyle this c2))
                         (snd (applyLayerStyle this c2)))
       else this.
Proof.
  intros this1.
  assert (Hres : exists lp, this1 = set_layerPaint this lp /\ lp <> PaintUndefined).
  { subst this1. rewrite applyLayerStyle_fst.
    destruct (layerPaint this) eqn:E.
    - apply buildLayerPaint_writes_paint.
    - exists (layerPaint this). rewrite set_layerPaint_same.
      split; [reflexivity|congruence].
    - exists (layerPaint this). rewrite set_layerPaint_same.
      split; [reflexivity|congruence]. }
  split; [exact Hres|]. split; [|split; [|split; [|split]]].
  - intros Hp. subst this1. rewrite applyLayerStyle_fst.
    destruct (layerPaint this); [contradiction|reflexivity|reflexivity].
  - intros Hp. subst this1. rewrite applyLayerStyle_fst, Hp. reflexivity.
  - intros c1. rewrite applyLayerStyle_fst.
    destruct Hres as (lp & Hlp & Hne).
    assert (Hl : layerPaint this1 = lp) by (rewrite Hlp; destruct this; reflexivity).
    rewrite Hl. destruct lp; [contradiction|reflexivity|reflexivity].
  - destruct (applyLayerStyle_opens_layer this c) as [_ Hl]. fold this1 in Hl.
    destruct (layerPaint this1); [contradiction|exact Hl|exact Hl].
  - unfold render, renderBody. cbv zeta.
    destruct (shouldRenderOn this (applyTransform this (save c))); [|reflexivity].
    destruct (applyLayerStyle this (applyTransform this (save c))) as [v1 c3].
    simpl. destruct (_render v1 c3) as [v2 c4]. reflexivity.
Qed.

(** X8: a node that may be quick-rejected and is rejected is not drawn: the
    view comes back as it was (its paint is not built), and the surface comes
    back with the matrix, clip and save stack it had, one [save] and one
    [restore] later. *)
Theorem render_rejected_draws_nothing (this : SkyBaseLayerView) (c : SkCanvas) :
  canQuickReject this = true ->
  quickReject (applyTransform this (save c)) (renderFrame this) = true ->
  render this c
  = (this, mkCanvas (current c) (saved c) (S (saveCalls c)) (S (restoreCalls c))).
Proof.
  intros Hq Hr. unfold render, renderBody, shouldRenderOn.
  rewrite Hq, Hr. simpl. rewrite andb_false_r. reflexivity.
Qed.

(** ** Further properties of the children loop *)




Lemma renderChildrenLoop_cons (childView : SkyBaseLayerView)
    (rest : list SkyBaseLayerView) (st : bool * SkCanvas) :
  renderChildrenLoop (childView :: rest) st
  = let '(childView1, st1) := renderChild childView (closeMaskFor childView st) in
    let '(rest1, st2) := renderChildrenLoop rest st1 in
    (childView1 :: rest1, st2).
Proof. reflexivity. Qed.



Lemma renderChildrenLoop_length (cs : list SkyBaseLayerView) :
  forall st : bool * SkCanvas,
    List.length (fst (renderChildrenLoop cs st)) = List.length cs.
Proof.
  induction cs as [|childView rest IH]; intros st; [reflexivity|].
  rewrite renderChildrenLoop_cons.
  destruct (renderChild childView (closeMaskFor childView st)) as [v1 st1].
  specialize (IH st1).
  destruct (renderChildrenLoop rest st1) as [rest1 st2]. simpl in *.
  rewrite IH. reflexivity.
Qed.

Lemma renderChildrenLoop_app_lists (pre post : list SkyBaseLayerView) :
  forall st : bool * SkCanvas,
    renderChildrenLoop (pre ++ post) st
    = let '(pre1, st1) := renderChildrenLoop pre st in
      let '(post1, st2) := renderChildrenLoop post st1 in
      (pre1 ++ post1, st2).
Proof.
  induction pre as [|a pre IH]; intros st.
  - simpl. destruct (renderChildrenLoop post st). reflexivity.
  - simpl app. rewrite !renderChildrenLoop_cons.
    destruct (renderChild a (closeMaskFor a st)) as [a1 sta].
    rewrite IH.
    destruct (renderChildrenLoop pre sta) as [pre1 st1].
    destruct (renderChildrenLoop post st1) as [post1 st2]. reflexivity.
Qed.

(** The turn of a hidden child that is neither a mask nor a chain breaker
    does nothing. *)
Lemma renderChild_hidden_plain (hidden : SkyBaseLayerView)
    (st : bool * SkCanvas) :
  visible hidden = false ->
  isMask hidden = false ->
  shouldBreakMaskChain hidden = false ->
  renderChild hidden (closeMaskFor hidden st) = (hidden, st).
Proof.
  intros Hv Hm Hb. destruct st as [isMasking c].
  unfold closeMaskFor, renderChild. rewrite Hm, Hb, Hv. simpl.
  rewrite Hm. reflexivity.
Qed.

(** X10: [renderChildren] changes nothing of the parent but its child list,
    which keeps its length; a single visible child that is not a mask is
    simply rendered; and a hidden child that is neither a mask nor a chain
    breaker is skipped: with it or without it among the children the surface
    comes out the same and so do the other children, the hidden child staying
    as it was, in its place. *)
Theorem renderChildren_skips_hidden_plain_child (this : SkyBaseLayerView)
    (pre post : list SkyBaseLayerView) (hidden : SkyBaseLayerView)
    (c : SkCanvas) :
  visible hidden = false ->
  isMask hidden = false ->
  shouldBreakMaskChain hidden = false ->
  let withHidden := renderChildren (set_children this (pre ++ hidden :: post)) c in
  let without := renderChildren (set_children this (pre ++ post)) c in
  snd withHidden = snd without
  /\ children (fst withHidden)
     = firstn (List.length pre) (children (fst without))
       ++ hidden :: skipn (List.length pre) (children (fst without))
  /\ fst (renderChildren this c)
     = set_children this (children (fst (renderChildren this c)))
  /\ List.length (children (fst (renderChildren this c)))
     = List.length (children this)
  /\ (forall child,
        children this = [child] ->
        visible child = true ->
        isMask (fst (render child c)) = false ->
        renderChildren this c
        = (set_children this [fst (render child c)], snd (render child c))).
Proof.
  intros Hv Hm Hb withHidden without.
  assert (Hch : forall v l, children (set_children v l) = l)
    by (intros v l; destruct v; reflexivity).
  split; [|split; [|split; [|split]]].
  - subst withHidden without. unfold renderChildren. rewrite !Hch.
    rewrite renderChildrenLoop_app, renderChildrenLoop_app_lists.
    destruct (renderChildrenLoop pre (false, c)) as [pre1 st1].
    rewrite (renderChild_hidden_plain hidden st1 Hv Hm Hb).
    destruct (renderChildrenLoop post st1) as [post1 [isMasking c1]].
    reflexivity.
  - subst withHidden without. unfold renderChildren. rewrite !Hch.
    rewrite renderChildrenLoop_app, renderChildrenLoop_app_lists.
    pose proof (renderChildrenLoop_length pre (false, c)) as Hlen.
    destruct (renderChildrenLoop pre (false, c)) as [pre1 st1].
    rewrite (renderChild_hidden_plain hidden st1 Hv Hm Hb).
    destruct (renderChildrenLoop post st1) as [post1 [isMasking c1]].
    simpl in Hlen. simpl fst. rewrite ?Hch. rewrite <- Hlen.
    rewrite firstn_app, skipn_app, Nat.sub_diag, firstn_all, skipn_all.
    simpl. rewrite app_nil_r. reflexivity.
  - unfold renderChildren.
    destruct (renderChildrenLoop (children this) (false, c))
      as [children1 [isMasking c1]].
    simpl. rewrite ?Hch. reflexivity.
  - unfold renderChildren.
    pose proof (renderChildrenLoop_length (children this) (false, c)) as Hlen.
    destruct (renderChildrenLoop (children this) (false, c))
      as [children1 [isMasking c1]].
    simpl in *. rewrite ?Hch. exact Hlen.
  - intros child Hone Hvis Hmask. unfold renderChildren. rewrite Hone.
    rewrite renderChildrenLoop_cons. unfold closeMaskFor, renderChild.
    rewrite andb_false_r, Hvis.
    destruct (render child c) as [v1 c1]. simpl in Hmask. rewrite Hmask.
    reflexivity.
Qed.

(** ** Further properties of construction and traversal *)

Lemma buildChild_children (this : SkyBaseLayerView)
    (childModel : ClassValue.t * SkyBaseLayer.t) :
  buildChild this childModel
  = set_children this
      (children this
       ++ if hasView (fst childModel)
          then [newView (fst childModel) (snd childModel)] else []).
Proof.
  destruct childModel as [cls m]. unfold buildChild, addChild.
  destruct cls; simpl; try reflexivity.
  rewrite app_nil_r. destruct this. reflexivity.
Qed.

(** X11: [buildChildren] appends, in the order of the layers, one view per
    layer whose class has a view, behind the children already there; a layer
    of any other class is skipped without a trace, and nothing else of the
    parent changes. *)
Theorem buildChildren_appends_known_classes (this : SkyBaseLayerView)
    (layers : list (ClassValue.t * SkyBaseLayer.t)) :
  buildChildren this layers
  = set_children this
      (children this
       ++ map (fun childModel => newView (fst childModel) (snd childModel))
            (filter (fun childModel => hasView (fst childModel)) layers)).
Proof.
  unfold buildChildren. revert this.
  induction layers as [|childModel rest IH]; intros this; simpl.
  - rewrite app_nil_r. destruct this. reflexivity.
  - rewrite IH, buildChild_children.
    destruct (hasView (fst childModel)); simpl.
    + rewrite <- app_assoc. reflexivity.
    + rewrite app_nil_r. reflexivity.
Qed.

Lemma traverse_unfold (this : SkyBaseLayerView) :
  traverse this = this :: flat_map traverse (children this).
Proof.
  destruct this as [m cs t sf lp rq cq]. reflexivity.
Qed.

Lemma traverse_child (this child r : SkyBaseLayerView) :
  In child (children this) -> In r (traverse child) -> In r (traverse this).
Proof.
  intros Hc Hr. rewrite traverse_unfold. right.
  apply in_flat_map. eauto.
Qed.

Lemma reachedThroughHits_traverse (pt : Point.t) (this r : SkyBaseLayerView) :
  reachedThroughHits pt this r ->
  In r (traverse this) /\ (r = this \/ interactive r = true).
Proof.
  induction 1 as [this|this child r Hin Hi Hc Hreach [IH1 IH2]].
  - split; [rewrite traverse_unfold; left; reflexivity|left; reflexivity].
  - split; [eapply traverse_child; eauto|]. right.
    destruct IH2 as [->|H]; assumption.
Qed.

(** ** Further properties of hit-testing *)

(** X12: [findView] answers exactly when the view it is called on contains
    the point; its answer is a view of the tree under it, and any answer
    other than that view itself is interactive (visible and not locked). *)
Theorem findView_answers_iff_contained (pt : Point.t) (this : SkyBaseLayerView) :
  (findView pt this = None <-> containsPoint this pt = false)
  /\ (forall r, findView pt this = Some r ->
                In r (traverse this) /\ (r = this \/ interactive r = true)).
Proof.
  split.
  - rewrite findView_unfold. destruct (containsPoint this pt); split;
      try discriminate; reflexivity.
  - intros r Hr. destruct (findView_result pt this r Hr) as [_ Hreach].
    eapply reachedThroughHits_traverse; eauto.
Qed.

Lemma firstSome_all_None {A B : Type} (f : A -> option B) (l : list A) :
  Forall (fun a => f a = None) l -> firstSome f l = None.
Proof.
  induction 1 as [|a l Ha _ IH]; simpl; [reflexivity|].
  rewrite Ha. exact IH.
Qed.

(** X13: among overlapping siblings the one drawn last wins: when a child
    is interactive and contains the point, and every sibling after it in
    paint order is not interactive or does not contain the point, then a
    parent that contains the point answers what that child answers, whatever
    the siblings before it are, and the child does answer; a parent that does
    not contain the point answers nothing. *)
Theorem findView_last_drawn_sibling_wins (pt : Point.t)
    (this child : SkyBaseLayerView) (before after : list SkyBaseLayerView) :
  children this = before ++ child :: after ->
  interactive child = true ->
  containsPoint child pt = true ->
  Forall (fun c => interactive c = false \/ containsPoint c pt = false) after ->
  findView pt this
  = (if containsPoint this pt then findView pt child else None)
  /\ exists r, findView pt child = Some r.
Proof.
  intros Hch Hi Hc Hafter.
  assert (Hchild : exists r, findView pt child = Some r).
  { rewrite (findView_unfold pt child), Hc. eauto. }
  split; [|exact Hchild]. destruct Hchild as [r Hr].
  rewrite (findView_unfold pt this).
  destruct (containsPoint this pt); [|reflexivity].
  rewrite Hch, rev_app_distr. simpl rev. rewrite <- app_assoc.
  rewrite firstSome_app.
  rewrite (firstSome_all_None (tryChild pt) (rev after)).
  - simpl. unfold tryChild at 1. rewrite Hi, Hr. reflexivity.
  - apply Forall_rev. eapply Forall_impl; [|exact Hafter].
    intros c [Hn|Hn]; unfold tryChild.
    + rewrite Hn. reflexivity.
    + destruct (interactive c); [|reflexivity].
      rewrite findView_unfold, Hn. reflexivity.
Qed.

(** ** Frames that cannot be hit *)

Lemma SFltb_zero_trans (x w : spec_float) :
  SFltb (S754_zero false) x = true -> SFltb x w = true ->
  SFltb (S754_zero false) w = true.
Proof.
  unfold SFltb, SFcompare.
  destruct x as [sx|sx| |sx mx ex], w as [sw|sw| |sw mw ew];
    try discriminate;
    try (destruct sx; discriminate);
    try (destruct sw; try discriminate; reflexivity);
    try (destruct sx, sw; try discriminate; reflexivity).
Qed.

(** [0 < x] and [x < w] give [0 < w]. *)
Lemma ltb_zero_trans (x w : float) :
  (0 <? x) = true -> (x <? w) = true -> (0 <? w) = true.
Proof.
  rewrite !ltb_spec. change (Prim2SF 0) with (S754_zero false).
  apply SFltb_zero_trans.
Qed.

(** X14: a view whose current frame has a width or a height that is not
    greater than 0 (zero, negative or [NaN]) contains no point at all, so
    [findView] never answers it nor anything below it. *)
Theorem containsPoint_needs_positive_size
    (this : SkyBaseLayerView) (pt : Point.t) :
  (0 <? Rect.width (frame this)) = false
  \/ (0 <? Rect.height (frame this)) = false ->
  containsPoint this pt = false /\ findView pt this = None.
Proof.
  intros H.
  assert (Hc : containsPoint this pt = false).
  { unfold containsPoint. cbv zeta.
    set (local := applyInverse (worldTransform (transform this)) pt).
    destruct (0 <? Point.x local) eqn:Hx; [|reflexivity].
    destruct (0 <? Point.y local) eqn:Hy; [|reflexivity].
    destruct (Point.x local <? Rect.width (frame this)) eqn:Hw; [|reflexivity].
    destruct (Point.y local <? Rect.height (frame this)) eqn:Hh; [|reflexivity].
    destruct H as [H|H].
    - rewrite (ltb_zero_trans _ _ Hx Hw) in H. discriminate.
    - rewrite (ltb_zero_trans _ _ Hy Hh) in H. discriminate. }
  split; [exact Hc|]. rewrite findView_unfold, Hc. reflexivity.
Qed.

(** ** Layout *)

Lemma layoutNodes_unfold (n : LayoutView) :
  layoutNodes n = n :: flat_map layoutNodes (kids n).
Proof. destruct n. reflexivity. Qed.

(** The node's own part of [layout]. *)
Lemma layout_unfold (parent : option SkyBaseLayerView) (this : LayoutView) :
  exists v3,
    layout parent this
    = mkLayoutView v3 false false (map (layout (Some v3)) (kids this))
    /\ v3 = set_transform
              (if _transformDirty this
               then updateTransform
                      (if _layoutDirty this then layoutSelf parent (own this)
                       else own this)
               else if _layoutDirty this then layoutSelf parent (own this)
                    else own this)
              (updateWorldTransform
                 (transform
                    (if _transformDirty this
                     then updateTransform
                            (if _layoutDirty this
                             then layoutSelf parent (own this)
                             else own this)
                     else if _layoutDirty this
                          then layoutSelf parent (own this)
                          else own this))
                 match parent with
                 | Some p => transform p
                 | None => IDENTITY
                 end).
Proof. destruct this. eexists. split; reflexivity. Qed.

Lemma Forall_layoutNodes_kids (Q : LayoutView -> Prop)
    (f : LayoutView -> LayoutView) (ks : list LayoutView) :
  Forall (fun k => Forall Q (layoutNodes (f k))) ks ->
  Forall Q (flat_map layoutNodes (map f ks)).
Proof.
  induction 1 as [|k ks Hk _ IH]; simpl; [constructor|].
  apply Forall_app. split; assumption.
Qed.

Lemma layout_all_clean (this : LayoutView) :
  forall parent,
    Forall (fun n => isClean n = true) (layoutNodes (layout parent this)).
Proof.
  induction this as [this IH] using LayoutView_tree_ind. intros parent.
  destruct (layout_unfold parent this) as (v3 & -> & _).
  rewrite layoutNodes_unfold. simpl kids. constructor; [reflexivity|].
  apply Forall_layoutNodes_kids.
  eapply Forall_impl; [|exact IH]. intros k Hk. apply Hk.
Qed.

Lemma layout_node_count (this : LayoutView) :
  forall parent,
    List.length (layoutNodes (layout parent this))
    = List.length (layoutNodes this).
Proof.
  induction this as [this IH] using LayoutView_tree_ind. intros parent.
  destruct (layout_unfold parent this) as (v3 & -> & _).
  rewrite (layoutNodes_unfold this), layoutNodes_unfold. simpl kids.
  simpl List.length. f_equal.
  induction IH as [|k ks Hk _ IHks]; simpl; [reflexivity|].
  rewrite !length_app, Hk, IHks. reflexivity.
Qed.

Lemma updateTransform_model (v : SkyBaseLayerView) :
  model (updateTransform v) = model v
  /\ scaledFrame (updateTransform v) = scaledFrame v.
Proof. split; reflexivity. Qed.

Lemma layout_models (this : LayoutView) :
  (forall p v, model (layoutSelf p v) = model v) ->
  forall parent,
    map (fun n => model (own n)) (layoutNodes (layout parent this))
    = map (fun n => model (own n)) (layoutNodes this).
Proof.
  intros Hls.
  induction this as [this IH] using LayoutView_tree_ind. intros parent.
  destruct (layout_unfold parent this) as (v3 & -> & ->).
  rewrite (layoutNodes_unfold this), layoutNodes_unfold. simpl kids.
  simpl map. f_equal.
  - destruct (_transformDirty this), (_layoutDirty this); simpl;
      rewrite ?Hls; reflexivity.
  - match goal with |- context [map (layout ?p) _] => generalize p end.
    intros p.
    induction IH as [|k ks Hk _ IHks]; simpl; [reflexivity|].
    rewrite !map_app, Hk, IHks. reflexivity.
Qed.

(** X15: one [layout] pass clears both dirty flags on every node of the
    tree, hidden nodes included, and keeps the tree: the same number of
    nodes and, when the variants' [layoutSelf] does not replace the model,
    the same models in the same order. *)
Theorem layout_cleans_every_node
    (parent : option SkyBaseLayerView) (this : LayoutView) :
  Forall (fun n => isClean n = true) (layoutNodes (layout parent this))
  /\ List.length (layoutNodes (layout parent this))
     = List.length (layoutNodes this)
  /\ ((forall p v, model (layoutSelf p v) = model v) ->
      map (fun n => model (own n)) (layoutNodes (layout parent this))
      = map (fun n => model (own n)) (layoutNodes this)).
Proof.
  split; [apply layout_all_clean|].
  split; [apply layout_node_count|].
  intros Hls. apply layout_models, Hls.
Qed.

Lemma Forall_layoutNodes_inv (Q : LayoutView -> Prop) (n : LayoutView) :
  Forall Q (layoutNodes n) ->
  Q n /\ Forall (fun k => Forall Q (layoutNodes k)) (kids n).
Proof.
  rewrite layoutNodes_unfold. intros H. inversion H as [|? ? Hn Hks]; subst.
  split; [exact Hn|]. clear H Hn.
  induction (kids n) as [|k ks IH]; [constructor|].
  simpl in Hks. apply Forall_app in Hks. destruct Hks as [Hk Hrest].
  constructor; [exact Hk|apply IH, Hrest].
Qed.

Lemma layout_clean_is_refreshWorld (this : LayoutView) :
  forall parent,
    Forall (fun n => isClean n = true) (layoutNodes this) ->
    layout parent this = refreshWorld parent this.
Proof.
  induction this as [this IH] using LayoutView_tree_ind. intros parent Hclean.
  apply Forall_layoutNodes_inv in Hclean. destruct Hclean as [Hn Hks].
  destruct this as [v ld td ks]. unfold isClean in Hn. simpl in *.
  apply andb_true_iff in Hn. destruct Hn as [Hl Ht].
  apply negb_true_iff in Hl, Ht. subst ld td. simpl. f_equal.
  apply map_ext_in. intros k Hk.
  rewrite Forall_forall in IH, Hks. apply IH; auto.
Qed.

(** X16: the dirty flags gate the work: on a tree whose nodes are all
    clean, [layout] neither lays a node out nor rebuilds a local transform;
    it only refreshes the world transforms from the root down.  In
    particular a second pass right after a first one does just that. *)
Theorem layout_of_clean_tree_refreshes_world_only
    (parent : option SkyBaseLayerView) (this : LayoutView) :
  (Forall (fun n => isClean n = true) (layoutNodes this) ->
   layout parent this = refreshWorld parent this)
  /\ forall parent1,
       layout parent1 (layout parent this)
       = refreshWorld parent1 (layout parent this).
Proof.
  split; [apply layout_clean_is_refreshWorld|].
  intros parent1. apply layout_clean_is_refreshWorld, layout_all_clean.
Qed.

Lemma layout_unscaled_subtree (this : LayoutView) :
  (forall p v, commonLayoutSelf p v = Some (layoutSelf p v)) ->
  forall parent,
    match parent with
    | Some p => isFrameScaled p = false
    | None => True
    end ->
    Forall (fun n => _layoutDirty n = true /\ hasNumericSize n = true)
           (layoutNodes this) ->
    Forall (fun n => scaledFrame (own n) = None
                     /\ isFrameScaled (own n) = false)
           (layoutNodes (layout parent this)).
Proof.
  intros Hls.
  induction this as [this IH] using LayoutView_tree_ind.
  intros parent Hp Hall.
  apply Forall_layoutNodes_inv in Hall. destruct Hall as [[Hd Hn] Hks].
  destruct (layout_unfold parent this) as (v3 & -> & Hv3).
  rewrite Hd in Hv3.
  assert (Hself : layoutSelf parent (own this) = set_scaledFrame (own this) None).
  { pose proof (Hls parent (own this)) as H. unfold commonLayoutSelf in H.
    rewrite (calcInstanceChildScale_unscaled_parent parent Hp) in H.
    congruence. }
  rewrite Hself in Hv3.
  assert (Hsf : scaledFrame v3 = None)
    by (subst v3; destruct (_transformDirty this); reflexivity).
  assert (Hfs : isFrameScaled v3 = false).
  { unfold hasNumericSize, isNumber, intrinsicFrame in Hn.
    apply andb_true_iff in Hn. destruct Hn as [Hw Hh].
    subst v3. unfold isFrameScaled, frame, intrinsicFrame.
    destruct (_transformDirty this); simpl; rewrite Hw, Hh; reflexivity. }
  rewrite layoutNodes_unfold. simpl kids. simpl own.
  constructor; [split; assumption|].
  apply Forall_layoutNodes_kids.
  rewrite Forall_forall in IH, Hks. apply Forall_forall. intros k Hk.
  apply IH; auto.
Qed.

(** X17: when every variant lays itself out with [commonLayoutSelf], a
    full pass over a freshly dirty tree under a parent that is absent or not
    scaled leaves no override anywhere: every node ends without a scaled
    frame and not scaled, provided the authored widths and heights are
    numbers. *)
Theorem layout_below_unscaled_parent_clears_overrides
    (parent : option SkyBaseLayerView) (this : LayoutView) :
  (forall p v, commonLayoutSelf p v = Some (layoutSelf p v)) ->
  match parent with
  | Some p => isFrameScaled p = false
  | None => True
  end ->
  Forall (fun n => _layoutDirty n = true /\ hasNumericSize n = true)
         (layoutNodes this) ->
  Forall (fun n => scaledFrame (own n) = None
                   /\ isFrameScaled (own n) = false)
         (layoutNodes (layout parent this)).
Proof. intros Hls. apply layout_unscaled_subtree, Hls. Qed.

(** ** Hidden masks, and the parent that must be there *)

(** X23: a hidden mask still clips, without being drawn: its turn of the
    loop is [save] and [tryClip] and nothing else, and a sibling after it
    that is neither a mask nor a chain breaker is rendered on the surface
    that [tryClip] of the mask left.  With a hidden mask and one visible
    sibling, [renderChildren] is: [save], [tryClip] of the mask, [render] of
    the sibling, [restore]. *)
Theorem hidden_mask_still_clips (this : SkyBaseLayerView)
    (pre : list SkyBaseLayerView) (mask childView : SkyBaseLayerView)
    (c : SkCanvas) :
  isMask mask = true ->
  visible mask = false ->
  isMask childView = false ->
  shouldBreakMaskChain childView = false ->
  (forall st,
     renderChild mask st
     = (fst (tryClip mask (save (snd st))),
        (true, snd (tryClip mask (save (snd st))))))
  /\ renderEntry (pre ++ [mask]) childView c
     = snd (tryClip mask (save (renderEntry pre mask c)))
  /\ (let clipped := tryClip mask (save c) in
      let drawn := render childView (snd clipped) in
      children this = [mask; childView] ->
      visible childView = true ->
      isMask (fst drawn) = false ->
      renderChildren this c
      = (set_children this [fst clipped; fst drawn], restore (snd drawn))).
Proof.
  intros Hm Hv Hc Hb.
  assert (Hturn : forall st,
             renderChild mask st
             = (fst (tryClip mask (save (snd st))),
                (true, snd (tryClip mask (save (snd st)))))).
  { intros [isMasking c0]. unfold renderChild. rewrite Hv, Hm. simpl.
    destruct (tryClip mask (save c0)); reflexivity. }
  split; [exact Hturn|]. split.
  - unfold renderEntry.
    change (pre ++ [mask]) with (pre ++ mask :: []).
    rewrite renderChildrenLoop_app.
    destruct (renderChildrenLoop pre (false, c)) as [pre1 st1]. simpl snd.
    rewrite Hturn. simpl.
    unfold closeMaskFor at 1. rewrite Hc, Hb. reflexivity.
  - intros clipped drawn Hch Hvis Hd. subst drawn clipped.
    unfold renderChildren. rewrite Hch.
    assert (H0 : closeMaskFor mask (false, c) = (false, c))
      by (unfold closeMaskFor; rewrite andb_false_r; reflexivity).
    assert (H1 : forall c0, closeMaskFor childView (true, c0) = (true, c0))
      by (intros c0; unfold closeMaskFor; rewrite Hc, Hb; reflexivity).
    rewrite renderChildrenLoop_cons, H0, Hturn. cbv beta iota. simpl snd.
    rewrite renderChildrenLoop_cons, H1. unfold renderChild. rewrite Hvis.
    destruct (render childView (snd (tryClip mask (save c)))) as [v1 c1].
    simpl in Hd. rewrite Hd. reflexivity.
Qed.

(** X24: [calcOffsetAfterScale] fails exactly when the view has no parent,
    and [commonLayoutSelf] never fails: it reaches that call only after
    [calcInstanceChildScale] has answered, which it does not without a
    parent. *)
Theorem commonLayoutSelf_never_fails (parent : option SkyBaseLayerView)
    (this : SkyBaseLayerView) (newBounds oldBounds : Rect.t) :
  (calcOffsetAfterScale parent this newBounds oldBounds = None
   <-> parent = None)
  /\ (parent = None -> calcInstanceChildScale parent this = None)
  /\ exists this1, commonLayoutSelf parent this = Some this1.
Proof.
  split; [|split].
  - destruct parent as [p|]; simpl; split; try discriminate; reflexivity.
  - intros ->. reflexivity.
  - apply commonLayoutSelf_total.
Qed.

End LayerView.

(** ** The worked examples of the specification *)

(** Master width 100, child [x = 10, width = 80], instance width 140: scale
    1.5, new width 120, origin kept at 10. *)
Example both_edges_snapped_example :
  calcInstanceChildScale (Some (widenedInstance (restTransform tt)))
    (pinnedBothSides false (restTransform tt))
  = Some (mkScaleInfo 1.5 1)
  /\ option_map frame
       (commonLayoutSelf (Some (widenedInstance (restTransform tt)))
          (pinnedBothSides false (restTransform tt)))
     = Some (Rect.mk 10 0 120 20).
Proof. split; reflexivity. Qed.

(** Master width 100, child [x = 10, width = 50], instance width 160: scale
    2, new width 100, origin 20. *)
Example trailing_edge_snapped_example :
  calcInstanceChildScale
    (Some (mkScaledParent (Rect.mk 0 0 100 100) (Rect.mk 0 0 160 100)
             (restTransform tt)))
    (pinnedRight false (restTransform tt))
  = Some (mkScaleInfo 2 1)
  /\ option_map frame
       (commonLayoutSelf
          (Some (mkScaledParent (Rect.mk 0 0 100 100) (Rect.mk 0 0 160 100)
                   (restTransform tt)))
          (pinnedRight false (restTransform tt)))
     = Some (Rect.mk 20 0 100 20).
Proof. split; reflexivity. Qed.

(** A child of fixed width pinned on the right keeps its width and is moved:
    the offset step runs although the scale step was suppressed. *)
Example fixed_width_pinned_right_example :
  calcInstanceChildScale (Some (widenedInstance (restTransform tt)))
    (pinnedRight true (restTransform tt))
  = Some (mkScaleInfo 1 1)
  /\ option_map frame
       (commonLayoutSelf (Some (widenedInstance (restTransform tt)))
          (pinnedRight true (restTransform tt)))
     = Some (Rect.mk 50 0 50 20).
Proof. split; reflexivity. Qed.

(** A layer flipped horizontally and rotated by 90 degrees, framed at
    [(10, 20, 30, 40)]: pivot [(15, 20)], position [(25, 40)], scale
    [(-1, 1)], rotation [pi / 2] (the two negations cancel). *)
Example updateTransform_flipped_example :
  transform
    (updateTransform (fun d => d * 0x1.921fb54442d18p+1 / 180) (fun t => t)
       (mkLeaf
          (SkyBaseLayer.mk "flipped" (Rect.mk 10 20 30 40) 90 true false true
             false false false false false false false false false None)
          (restTransform tt)))
  = mkTransform (Point.mk 15 20) (Point.mk 25 40) (Point.mk (-1) 1)
      0x1.921fb54442d18p+0 tt tt.
Proof. reflexivity. Qed.

(** C1, as stated, fails: a child of fixed width with both its left and
    right edges snapped is stretched by 1.5 when its container goes from
    width 100 to width 140. *)
Lemma fixed_width_both_snapped_is_stretched :
  SkyBaseLayer.fixedWidth (model (pinnedBothSides true (restTransform tt))) = true
  /\ exists info,
       calcInstanceChildScale (Some (widenedInstance (restTransform tt)))
         (pinnedBothSides true (restTransform tt)) = Some info
       /\ scaleX info = 1.5
       /\ scaleX info <> 1.
Proof.
  split; [reflexivity|]. eexists. split; [reflexivity|]. split; [reflexivity|].
  simpl. apply float_neq_by_eqb; reflexivity.
Qed.

(** ** The theorems at concrete inputs *)

(** C8 at a child of a group shown at its authored size; the child carries a
    stale scaled frame, which is cleared. *)
Lemma calcInstanceChildScale_no_override_witness :
  ((Rect.width (intrinsicFrame (unscaledGroup (restTransform tt)))
    =? Rect.width (frame (unscaledGroup (restTransform tt)))) = true
   /\ (Rect.height (intrinsicFrame (unscaledGroup (restTransform tt)))
       =? Rect.height (frame (unscaledGroup (restTransform tt)))) = true)
  /\ calcInstanceChildScale (Some (unscaledGroup (restTransform tt)))
       (set_scaledFrame (pinnedRight false (restTransform tt))
          (Some (Rect.mk 1 2 3 4)))
     = None
  /\ exists this1,
       commonLayoutSelf (Some (unscaledGroup (restTransform tt)))
         (set_scaledFrame (pinnedRight false (restTransform tt))
            (Some (Rect.mk 1 2 3 4)))
       = Some this1
       /\ scaledFrame this1 = None
       /\ frame this1 = Rect.mk 10 0 50 20.
Proof.
  split; [split; reflexivity|].
  apply (calcInstanceChildScale_no_override
           (Some (unscaledGroup (restTransform tt)))
           (set_scaledFrame (pinnedRight false (restTransform tt))
              (Some (Rect.mk 1 2 3 4)))).
  right. exists (unscaledGroup (restTransform tt)).
  split; [reflexivity|]. split; reflexivity.
Defined.

(** C1 (amended) at a child of fixed width pinned on the right. *)
Lemma fixed_axis_scale_unless_both_snapped_witness :
  isFrameScaled (widenedInstance (restTransform tt)) = true
  /\ exists info,
       calcInstanceChildScale (Some (widenedInstance (restTransform tt)))
         (pinnedRight true (restTransform tt)) = Some info
       /\ scaleX info = 1.
Proof.
  split; [reflexivity|].
  destruct (fixed_axis_scale_unless_both_snapped
              (widenedInstance (restTransform tt))
              (pinnedRight true (restTransform tt)) eq_refl)
    as [(info & Hinfo & Hx & _) _].
  exists info. split; [exact Hinfo|]. exact (Hx eq_refl).
Defined.

(** C2 at the example of the specification: scale 1.5, origin kept. *)
Lemma both_edges_snapped_stretch_witness :
  isFrameScaled (widenedInstance (restTransform tt)) = true
  /\ exists info off,
       calcInstanceChildScale (Some (widenedInstance (restTransform tt)))
         (pinnedBothSides false (restTransform tt)) = Some info
       /\ calcOffsetAfterScale (Some (widenedInstance (restTransform tt)))
            (pinnedBothSides false (restTransform tt))
            (Rect.mk 0 0 120 20) (Rect.mk 10 0 80 20) = Some off
       /\ scaleX info = 1.5 /\ newX off = 10.
Proof.
  split; [reflexivity|].
  destruct (both_edges_snapped_stretch
              (widenedInstance (restTransform tt))
              (pinnedBothSides false (restTransform tt))
              (Rect.mk 0 0 120 20) (Rect.mk 10 0 80 20) eq_refl)
    as (info & off & Hinfo & Hoff & Hx & _).
  exists info, off. split; [exact Hinfo|]. split; [exact Hoff|].
  exact (Hx eq_refl eq_refl).
Defined.

(** C3 at the example of the specification: scale 2, new origin 20. *)
Lemma trailing_edge_snapped_scale_and_offset_witness :
  isFrameScaled
    (mkScaledParent (Rect.mk 0 0 100 100) (Rect.mk 0 0 160 100)
       (restTransform tt)) = true
  /\ exists info off,
       calcInstanceChildScale
         (Some (mkScaledParent (Rect.mk 0 0 100 100) (Rect.mk 0 0 160 100)
                  (restTransform tt)))
         (pinnedRight false (restTransform tt)) = Some info
       /\ calcOffsetAfterScale
            (Some (mkScaledParent (Rect.mk 0 0 100 100) (Rect.mk 0 0 160 100)
                     (restTransform tt)))
            (pinnedRight false (restTransform tt))
            (Rect.mk 0 0 100 20) (Rect.mk 10 0 50 20) = Some off
       /\ scaleX info = 2 /\ newX off = 20.
Proof.
  split; [reflexivity|].
  destruct (trailing_edge_snapped_scale_and_offset
              (mkScaledParent (Rect.mk 0 0 100 100) (Rect.mk 0 0 160 100)
                 (restTransform tt))
              (pinnedRight false (restTransform tt))
              (Rect.mk 0 0 100 20) (Rect.mk 10 0 50 20) eq_refl)
    as (info & off & Hinfo & Hoff & Hx & _).
  exists info, off. split; [exact Hinfo|]. split; [exact Hoff|].
  exact (Hx eq_refl eq_refl eq_refl).
Defined.

(** C4 at the example of the specification: new origin 40. *)
Lemma neither_edge_snapped_keeps_center_witness :
  exists off,
    calcOffsetAfterScale
      (Some (mkScaledParent (Rect.mk 0 0 100 100) (Rect.mk 0 0 200 100)
               (restTransform tt)))
      (unpinned false (restTransform tt))
      (Rect.mk 0 0 40 20) (Rect.mk 20 40 20 20) = Some off
    /\ newX off = 40.
Proof.
  destruct (neither_edge_snapped_keeps_center
              (mkScaledParent (Rect.mk 0 0 100 100) (Rect.mk 0 0 200 100)
                 (restTransform tt))
              (unpinned false (restTransform tt))
              (Rect.mk 0 0 40 20) (Rect.mk 20 40 20 20) (restTransform tt))
    as [(off & Hoff & Hx & _) _].
  exists off. split; [exact Hoff|]. exact (Hx eq_refl eq_refl).
Defined.

(** C9 on the path with a layer paint, with a drawing routine that opens and
    closes a scope of its own. *)
Lemma render_releases_every_scope_witness :
  (forall (v : SkyBaseLayerView (Matrix := unit)) (c : SkCanvas),
     saved (snd (drawInOwnScope v c)) = saved c)
  /\ (forall (v : SkyBaseLayerView (Matrix := unit)) (c : SkCanvas),
        layerPaint (fst (drawInOwnScope v c)) = layerPaint v)
  /\ (forall (v : SkyBaseLayerView (Matrix := unit)) (c : SkCanvas),
        (saveCalls (snd (drawInOwnScope v c)) + restoreCalls c
         = restoreCalls (snd (drawInOwnScope v c)) + saveCalls c)%nat)
  /\ saved (snd (render (fun _ _ => tt) neverReject sameFrame (fun r => r)
                   drawInOwnScope (translucentView (restTransform tt))
                   (freshCanvas tt))) = []
  /\ current (snd (render (fun _ _ => tt) neverReject sameFrame (fun r => r)
                     drawInOwnScope (translucentView (restTransform tt))
                     (freshCanvas tt))) = mkGState tt [].
Proof.
  assert (H1 : forall (v : SkyBaseLayerView (Matrix := unit)) (c : SkCanvas),
             saved (snd (drawInOwnScope v c)) = saved c)
    by (intros v c; reflexivity).
  assert (H2 : forall (v : SkyBaseLayerView (Matrix := unit)) (c : SkCanvas),
             layerPaint (fst (drawInOwnScope v c)) = layerPaint v)
    by (intros v c; reflexivity).
  assert (H3 : forall (v : SkyBaseLayerView (Matrix := unit)) (c : SkCanvas),
             (saveCalls (snd (drawInOwnScope v c)) + restoreCalls c
              = restoreCalls (snd (drawInOwnScope v c)) + saveCalls c)%nat)
    by (intros v c; simpl; lia).
  split; [exact H1|]. split; [exact H2|]. split; [exact H3|].
  destruct (render_releases_every_scope (fun _ _ => tt) neverReject sameFrame
              (fun r => r) drawInOwnScope H1 H2
              (translucentView (restTransform tt)) (freshCanvas tt) H3)
    as (_ & Hs & Hc & _).
  split; [exact Hs|exact Hc].
Defined.

(** The same node, drawn and then quick-rejected: three acquisitions and
    three releases (one pair is the drawing routine's), then one and one. *)
Example render_call_counts :
  (let c := snd (render (fun _ _ => tt) neverReject sameFrame (fun r => r)
                   drawInOwnScope (translucentView (restTransform tt))
                   (freshCanvas tt)) in
   (saveCalls c, restoreCalls c) = (3, 3)%nat)
  /\ (let c := snd (render (fun _ _ => tt) (fun _ _ => true) sameFrame
                      (fun r => r) drawInOwnScope
                      (translucentView (restTransform tt)) (freshCanvas tt)) in
      (saveCalls c, restoreCalls c) = (1, 1)%nat).
Proof. split; reflexivity. Qed.

(** C6 at the five siblings of the specification, with a drawing routine
    that opens and closes a scope of its own and masks that intersect their
    own shape into the clip. *)
Lemma mask_clips_siblings_up_to_next_mask_or_break_witness :
  (forall (v : SkyBaseLayerView (Matrix := unit)) (c : SkCanvas),
     saved (snd (drawInOwnScope v c)) = saved c)
  /\ (forall (v : SkyBaseLayerView (Matrix := unit)) (c : SkCanvas),
        layerPaint (fst (drawInOwnScope v c)) = layerPaint v)
  /\ (forall (v : SkyBaseLayerView (Matrix := unit)) (c : SkCanvas),
        model (fst (drawInOwnScope v c)) = model v)
  /\ (forall (v : SkyBaseLayerView (Matrix := unit)) (c : SkCanvas),
        saved (snd (clipOwnShape v c)) = saved c)
  /\ current
       (renderEntry (fun _ _ => tt) (fun _ => tt) neverReject sameFrame
          (fun r => r) drawInOwnScope clipOwnShape
          (firstn 3 (maskedSiblings (restTransform tt)) ++
           siblingView "mask2" (Rect.mk 0 0 10 10) true false
             (restTransform tt) :: [])
          (siblingView "plain3" (Rect.mk 0 0 10 10) false false
             (restTransform tt))
          (freshCanvas tt))
     = mkGState tt ["mask2"%string]
  /\ saved
       (renderEntry (fun _ _ => tt) (fun _ => tt) neverReject sameFrame
          (fun r => r) drawInOwnScope clipOwnShape
          (firstn 3 (maskedSiblings (restTransform tt)) ++
           siblingView "mask2" (Rect.mk 0 0 10 10) true false
             (restTransform tt) :: [])
          (siblingView "plain3" (Rect.mk 0 0 10 10) false false
             (restTransform tt))
          (freshCanvas tt))
     = [(ScopeSave, mkGState tt [])]
  /\ saved (snd (renderChildren (fun _ _ => tt) (fun _ => tt) neverReject
                   sameFrame (fun r => r) drawInOwnScope clipOwnShape
                   (groupOf "group" (Rect.mk 0 0 10 10) true false
                      (maskedSiblings (restTransform tt)) (restTransform tt))
                   (freshCanvas tt))) = [].
Proof.
  assert (H1 : forall (v : SkyBaseLayerView (Matrix := unit)) (c : SkCanvas),
             saved (snd (drawInOwnScope v c)) = saved c)
    by (intros v c; reflexivity).
  assert (H2 : forall (v : SkyBaseLayerView (Matrix := unit)) (c : SkCanvas),
             layerPaint (fst (drawInOwnScope v c)) = layerPaint v)
    by (intros v c; reflexivity).
  assert (H3 : forall (v : SkyBaseLayerView (Matrix := unit)) (c : SkCanvas),
             model (fst (drawInOwnScope v c)) = model v)
    by (intros v c; reflexivity).
  assert (H4 : forall (v : SkyBaseLayerView (Matrix := unit)) (c : SkCanvas),
             saved (snd (clipOwnShape v c)) = saved c)
    by (intros v c; reflexivity).
  split; [exact H1|]. split; [exact H2|]. split; [exact H3|]. split; [exact H4|].
  destruct (mask_clips_siblings_up_to_next_mask_or_break
              (fun _ _ => tt) (fun _ => tt) neverReject sameFrame (fun r => r)
              drawInOwnScope clipOwnShape H1 H2 H3 H4
              (groupOf "group" (Rect.mk 0 0 10 10) true false
                 (maskedSiblings (restTransform tt)) (restTransform tt))
              (freshCanvas tt))
    as (Hall & Hs & _).
  destruct (Hall (firstn 4 (maskedSiblings (restTransform tt)))
              (siblingView "plain3" (Rect.mk 0 0 10 10) false false
                 (restTransform tt))
              [] eq_refl) as (_ & _ & Hmask & _).
  assert (Hplain : Forall (fun k : SkyBaseLayerView (Matrix := unit) =>
                             isMask k = false /\ shouldBreakMaskChain k = false)
                     ([] ++ [siblingView "plain3" (Rect.mk 0 0 10 10) false
                               false (restTransform tt)]))
    by (constructor; [split; reflexivity|constructor]).
  destruct (Hmask (siblingView "mask2" (Rect.mk 0 0 10 10) true false
                     (restTransform tt))
              (firstn 3 (maskedSiblings (restTransform tt))) []
              eq_refl eq_refl Hplain)
    as (_ & _ & Hsaved & Hcur).
  split; [exact Hcur|]. split; [exact Hsaved|exact Hs].
Defined.

(** The whole loop on the five siblings, run with masks that intersect their
    own shape into the clip: each child is drawn under the clip named after
    it. *)
Example mask_chain_run :
  map (fun pre_child =>
         clip (current
                 (renderEntry (fun _ _ => tt) (fun _ => tt) neverReject
                    sameFrame (fun r => r) drawInOwnScope clipOwnShape
                    (firstn (fst pre_child) (maskedSiblings (restTransform tt)))
                    (snd pre_child) (freshCanvas tt))))
      (combine [0; 1; 2; 3; 4]%nat (maskedSiblings (restTransform tt)))
  = [[]; ["mask1"]; ["mask1"]; []; ["mask2"]]%string.
Proof. reflexivity. Qed.

(** The same loop with the empty [_tryClip] of this class: the mask scopes
    are opened and closed at the same places, and nothing is intersected
    into the clip. *)
Example mask_chain_run_base :
  map (fun pre_child =>
         let entry :=
           renderEntry (fun _ _ => tt) (fun _ => tt) neverReject
             sameFrame (fun r => r) drawInOwnScope _tryClip_base
             (firstn (fst pre_child) (maskedSiblings (restTransform tt)))
             (snd pre_child) (freshCanvas tt) in
         (clip (current entry), List.length (saved entry)))
      (combine [0; 1; 2; 3; 4]%nat (maskedSiblings (restTransform tt)))
  = [([], 0); ([], 1); ([], 1); ([], 0); ([], 1)]%nat.
Proof. reflexivity. Qed.

(** C7 at three stacked children: the last one is locked, so the one below
    it answers. *)
Lemma findView_depth_first_reverse_order_witness :
  findView (fun m p => Point.minus p m) (Point.mk 15 15)
    (stackedScene (Point.mk 0 0) (Point.mk 10 10))
  = Some (siblingView "b" (Rect.mk 10 10 20 20) false false
            (restTransform (Point.mk 10 10)))
  /\ map (fun v => SkyBaseLayer.objectId (model v))
       (snd (findViewVisits (fun m p => Point.minus p m) (Point.mk 15 15)
               (stackedScene (Point.mk 0 0) (Point.mk 10 10))))
     = ["root"; "b"]%string.
Proof.
  destruct (findView_depth_first_reverse_order
              (fun m p => Point.minus p m) (Point.mk 15 15)
              (stackedScene (Point.mk 0 0) (Point.mk 10 10)))
    as (Hfind & _ & Hvisits & _).
  split.
  - exact Hfind.
  - exact (f_equal (map (fun v => SkyBaseLayer.objectId (model v))) Hvisits).
Defined.

(** C10 at a point on the left edge of the stacked children: none of them
    contains it, and the root answers. *)
Lemma containsPoint_excludes_frame_edges_witness :
  containsPoint (fun m p => Point.minus p m)
    (siblingView "b" (Rect.mk 10 10 20 20) false false
       (restTransform (Point.mk 10 10)))
    (Point.mk 10 15) = false
  /\ option_map (fun v => SkyBaseLayer.objectId (model v))
       (findView (fun m p => Point.minus p m) (Point.mk 10 15)
          (stackedScene (Point.mk 0 0) (Point.mk 10 10)))
     = Some "root"%string.
Proof.
  split.
  - apply (containsPoint_excludes_frame_edges (fun m p => Point.minus p m)
             (siblingView "b" (Rect.mk 10 10 20 20) false false
                (restTransform (Point.mk 10 10)))
             (Point.mk 10 15)).
    left. reflexivity.
  - reflexivity.
Defined.

(** ** Render without quick rejection *)

(** X18: a view that must not be quick-rejected ([canQuickReject] false)
    is rendered the same way whatever the surface answers to the rejection
    test. *)
Theorem render_ignores_quickReject_when_disabled {Matrix : Type}
    (concatMatrix : Matrix -> Matrix -> Matrix)
    (quickReject1 quickReject2 : SkCanvas -> Rect.t -> bool)
    (inflateFrame : SkyBaseLayer.t -> Rect.t -> Rect.t)
    (onlySize : Rect.t -> Rect.t)
    (_render : SkyBaseLayerView -> SkCanvas -> SkyBaseLayerView * SkCanvas)
    (this : SkyBaseLayerView) (c : SkCanvas) :
  canQuickReject this = false ->
  render concatMatrix quickReject1 inflateFrame onlySize _render this c
  = render concatMatrix quickReject2 inflateFrame onlySize _render this c.
Proof.
  intros Hq. unfold render, renderBody, shouldRenderOn. rewrite Hq. reflexivity.
Qed.

(** ** The zoom controller *)

Module ZoomControllerFacts.
Import ZoomController.

(** *** Order facts on binary64 numbers *)

Lemma SFcompare_antisym (a b : spec_float) (c : comparison) :
  SFcompare a b = Some c -> SFcompare b a = Some (CompOpp c).
Proof.
  destruct a as [sa|sa| |sa ma ea], b as [sb|sb| |sb mb eb]; simpl;
    try discriminate;
    try (intros [= <-]; reflexivity);
    try (destruct sa; intros [= <-]; reflexivity);
    try (destruct sb; intros [= <-]; reflexivity);
    try (destruct sa, sb; intros [= <-]; reflexivity).
  destruct sa, sb; try (intros [= <-]; reflexivity);
    intros [= <-]; f_equal;
    rewrite (Z.compare_antisym ea eb);
    (destruct (Z.compare ea eb); simpl; try reflexivity;
     change (Pos.compare_cont Eq mb ma)
       with (Pos.compare_cont (CompOpp Eq) mb ma);
     rewrite <- Pos.compare_cont_antisym; rewrite ?CompOpp_involutive;
     reflexivity).
Qed.

Lemma SFcompare_Some (a b : spec_float) :
  a <> S754_nan -> b <> S754_nan -> exists c, SFcompare a b = Some c.
Proof.
  destruct a, b; simpl; intros Ha Hb; try contradiction; eauto.
Qed.

Lemma SFcompare_refl_number (a : spec_float) :
  SFeqb a a = true -> a <> S754_nan.
Proof. destruct a; simpl; try discriminate; intros _; discriminate. Qed.

Lemma isNumber_not_nan (a : float) :
  isNumber a = true -> Prim2SF a <> S754_nan.
Proof.
  unfold isNumber. rewrite eqb_spec. apply SFcompare_refl_number.
Qed.

Lemma not_nan_isNumber (a : float) :
  Prim2SF a <> S754_nan -> isNumber a = true.
Proof.
  unfold isNumber. rewrite eqb_spec. unfold SFeqb.
  destruct (Prim2SF a) as [s|s| |s m e]; simpl; try contradiction;
    try (destruct s; reflexivity); intros _.
  destruct s; rewrite Z.compare_refl;
    fold (Pos.compare m m); rewrite Pos.compare_refl; reflexivity.
Qed.

Lemma leb_isNumber (a b : float) :
  (a <=? b) = true -> isNumber a = true /\ isNumber b = true.
Proof.
  rewrite leb_spec. unfold SFleb. intros H.
  split; apply not_nan_isNumber; intros E; rewrite E in H;
    [|destruct (Prim2SF a)]; simpl in H; discriminate.
Qed.

Lemma ltb_leb (a b : float) : (a <? b) = true -> (a <=? b) = true.
Proof.
  rewrite ltb_spec, leb_spec. unfold SFltb, SFleb.
  destruct (SFcompare (Prim2SF a) (Prim2SF b)) as [[| |]|];
    try discriminate; reflexivity.
Qed.

Lemma ltb_false_leb (a b : float) :
  isNumber a = true -> isNumber b = true ->
  (a <? b) = false -> (b <=? a) = true.
Proof.
  intros Ha Hb. rewrite ltb_spec, leb_spec. unfold SFltb, SFleb.
  destruct (SFcompare_Some _ _ (isNumber_not_nan a Ha) (isNumber_not_nan b Hb))
    as [c Hc].
  rewrite Hc, (SFcompare_antisym _ _ _ Hc).
  destruct c; simpl; try discriminate; reflexivity.
Qed.

Lemma leb_ltb_false (a b : float) : (a <=? b) = true -> (b <? a) = false.
Proof.
  rewrite ltb_spec, leb_spec. unfold SFltb, SFleb.
  destruct (SFcompare (Prim2SF a) (Prim2SF b)) as [c|] eqn:Hc;
    [|discriminate].
  rewrite (SFcompare_antisym _ _ _ Hc).
  destruct c; simpl; try discriminate; reflexivity.
Qed.

Lemma SFcompare_Eq_finite (x : spec_float) (s : bool) (m : positive) (e : Z) :
  SFcompare x (S754_finite s m e) = Some Eq -> x = S754_finite s m e.
Proof.
  destruct x as [sx|sx| |sx mx ex]; simpl; try discriminate;
    try (destruct s; discriminate); try (destruct sx; discriminate).
  destruct sx, s; try discriminate;
    (destruct (Z.compare ex e) eqn:E; try discriminate;
     apply Z.compare_eq in E; subst;
     destruct (Pos.compare_cont Eq mx m) eqn:F; try discriminate;
     apply Pos.compare_eq in F; subst; reflexivity).
Qed.

(** A number that is neither below nor above a finite non-zero number is
    that number. *)
Lemma not_ltb_finite_eq (a b : float) (s : bool) (m : positive) (e : Z) :
  Prim2SF b = S754_finite s m e ->
  isNumber a = true ->
  (a <? b) = false -> (b <? a) = false -> a = b.
Proof.
  intros Hb Ha. rewrite !ltb_spec. unfold SFltb.
  assert (Hbn : Prim2SF b <> S754_nan) by (rewrite Hb; discriminate).
  destruct (SFcompare_Some _ _ (isNumber_not_nan a Ha) Hbn) as [c Hc].
  rewrite Hc, (SFcompare_antisym _ _ _ Hc).
  destruct c; simpl; try discriminate. intros _ _.
  rewrite Hb in Hc. apply SFcompare_Eq_finite in Hc.
  rewrite <- (SF2Prim_Prim2SF a), <- (SF2Prim_Prim2SF b), Hc, Hb. reflexivity.
Qed.

Lemma leb_neg20_ltb_20 (d : float) : (d <=? -20) = true -> (d <? 20) = true.
Proof.
  rewrite leb_spec, ltb_spec.
  change (Prim2SF (-20)) with (S754_finite true 5629499534213120 (-48)).
  change (Prim2SF 20) with (S754_finite false 5629499534213120 (-48)).
  destruct (Prim2SF d) as [s|s| |s m e];
    try destruct s; cbv beta iota delta [SFleb SFltb SFcompare];
    try discriminate; reflexivity.
Qed.

Lemma is_nan_isNumber (a : float) : is_nan a = negb (isNumber a).
Proof. reflexivity. Qed.

(** *** Wheel *)

(** X19: outside line mode ([deltaMode] other than 1) [getScaleDelta]
    clamps a wheel step to [-20 .. 20]: a numeric [deltaY] gives a result in
    that range, a [deltaY] strictly inside it is returned as it is, one at or
    above 20 gives 20 and one at or below -20 gives -20. *)
Theorem getScaleDelta_clamps (e : WheelEvent) :
  (deltaMode e =? 1)%Z = false ->
  (isNumber (deltaY e) = true ->
   (-20 <=? getScaleDelta e) = true /\ (getScaleDelta e <=? 20) = true)
  /\ ((deltaY e <? 20) = true -> (-20 <? deltaY e) = true ->
      getScaleDelta e = deltaY e)
  /\ ((20 <=? deltaY e) = true -> getScaleDelta e = 20)
  /\ ((deltaY e <=? -20) = true -> getScaleDelta e = -20).
Proof.
  intros Hmode. unfold getScaleDelta. rewrite Hmode.
  set (d := deltaY e). clearbody d.
  split; [|split; [|split]].
  - intros Hd.
    destruct (d <? 20) eqn:H20; destruct (-20 <? d) eqn:Hm20; simpl;
      try (split; [apply ltb_leb; assumption|apply ltb_leb; assumption]).
    + (* d < 20, not -20 < d *)
      unfold Math_min. rewrite !is_nan_isNumber, Hd, H20. simpl.
      unfold Math_max. rewrite !is_nan_isNumber, Hd. simpl.
      destruct (d <? -20) eqn:Hlt; [split; reflexivity|].
      rewrite Hm20.
      assert (Heq : d = -20)
        by (eapply not_ltb_finite_eq; eauto; reflexivity).
      subst d. split; reflexivity.
    + (* not d < 20, -20 < d *)
      unfold Math_min. rewrite !is_nan_isNumber, Hd, H20. simpl.
      destruct (20 <? d) eqn:Hgt; [split; reflexivity|].
      assert (Heq : d = 20)
        by (eapply not_ltb_finite_eq; eauto; reflexivity).
      subst d. split; reflexivity.
    + (* neither *)
      unfold Math_min. rewrite !is_nan_isNumber, Hd, H20. simpl.
      destruct (20 <? d) eqn:Hgt; [split; reflexivity|].
      assert (Heq : d = 20)
        by (eapply not_ltb_finite_eq; eauto; reflexivity).
      subst d. split; reflexivity.
  - intros -> ->. reflexivity.
  - intros Hge. destruct (leb_isNumber _ _ Hge) as [_ Hd].
    rewrite (leb_ltb_false _ _ Hge). simpl.
    unfold Math_min. rewrite !is_nan_isNumber, Hd, (leb_ltb_false _ _ Hge).
    simpl.
    destruct (20 <? d) eqn:Hgt; [reflexivity|].
    assert (Heq : d = 20)
      by (eapply not_ltb_finite_eq;
          eauto using leb_ltb_false; reflexivity).
    subst d. reflexivity.
  - intros Hle. destruct (leb_isNumber _ _ Hle) as [Hd _].
    rewrite (leb_neg20_ltb_20 _ Hle), (leb_ltb_false _ _ Hle). simpl.
    unfold Math_min. rewrite !is_nan_isNumber, Hd, (leb_neg20_ltb_20 _ Hle).
    simpl.
    unfold Math_max. rewrite !is_nan_isNumber, Hd, (leb_ltb_false _ _ Hle).
    simpl.
    destruct (d <? -20) eqn:Hlt; [reflexivity|].
    assert (Heq : d = -20)
      by (eapply not_ltb_finite_eq;
          eauto using leb_ltb_false; reflexivity).
    subst d. reflexivity.
Qed.


(** *** Drag *)



(** *** Pinch *)


End ZoomControllerFacts.

(** ** The further properties at concrete inputs *)

(** X2 at a child pinned on both sides in a container widened from 100 to
    140: it is stretched to width 120 and stays at [x = 10]. *)
Lemma commonLayoutSelf_keeps_snapped_leading_edge_witness :
  commonLayoutSelf (Some (widenedInstance (restTransform tt)))
    (pinnedBothSides false (restTransform tt))
  = Some (set_scaledFrame (pinnedBothSides false (restTransform tt))
            (Some (Rect.mk 10 0 120 20)))
  /\ Rect.x (frame (set_scaledFrame (pinnedBothSides false (restTransform tt))
                      (Some (Rect.mk 10 0 120 20))))
     = Rect.x (intrinsicFrame (pinnedBothSides false (restTransform tt))).
Proof.
  split; [reflexivity|].
  exact (proj1 (commonLayoutSelf_keeps_snapped_leading_edge
                  (Some (widenedInstance (restTransform tt)))
                  (pinnedBothSides false (restTransform tt))
                  (set_scaledFrame (pinnedBothSides false (restTransform tt))
                     (Some (Rect.mk 10 0 120 20)))
                  eq_refl) eq_refl).
Defined.

(** X3 at a child pinned on the left, [x = 10], master width 100, instance
    width 160: scale [(160 - 10) / (100 - 10)], origin kept. *)
Lemma leading_edge_snapped_scale_and_offset_witness :
  isFrameScaled
    (mkScaledParent (Rect.mk 0 0 100 100) (Rect.mk 0 0 160 100)
       (restTransform tt)) = true
  /\ exists info off,
       calcInstanceChildScale
         (Some (mkScaledParent (Rect.mk 0 0 100 100) (Rect.mk 0 0 160 100)
                  (restTransform tt)))
         (pinnedLeft false (restTransform tt)) = Some info
       /\ calcOffsetAfterScale
            (Some (mkScaledParent (Rect.mk 0 0 100 100) (Rect.mk 0 0 160 100)
                     (restTransform tt)))
            (pinnedLeft false (restTransform tt))
            (Rect.mk 0 0 80 20) (Rect.mk 10 0 50 20) = Some off
       /\ scaleX info = 150 / 90 /\ newX off = 10.
Proof.
  split; [reflexivity|].
  destruct (leading_edge_snapped_scale_and_offset
              (mkScaledParent (Rect.mk 0 0 100 100) (Rect.mk 0 0 160 100)
                 (restTransform tt))
              (pinnedLeft false (restTransform tt))
              (Rect.mk 0 0 80 20) (Rect.mk 10 0 50 20) eq_refl)
    as (info & off & Hinfo & Hoff & Hx & _).
  exists info, off. split; [exact Hinfo|]. split; [exact Hoff|].
  exact (Hx eq_refl eq_refl eq_refl).
Defined.

(** X4 at a child of a group shown at its authored size. *)
Lemma commonLayoutSelf_unscaled_parent_unscaled_child_witness :
  isFrameScaled (unscaledGroup (restTransform tt)) = false
  /\ exists this1,
       commonLayoutSelf (Some (unscaledGroup (restTransform tt)))
         (pinnedRight false (restTransform tt)) = Some this1
       /\ scaledFrame this1 = None
       /\ isFrameScaled this1 = false
       /\ forall child : SkyBaseLayerView (Matrix := unit),
            calcInstanceChildScale (Some this1) child = None.
Proof.
  split; [reflexivity|].
  exact (commonLayoutSelf_unscaled_parent_unscaled_child
           (Some (unscaledGroup (restTransform tt)))
           (pinnedRight false (restTransform tt)) eq_refl eq_refl eq_refl).
Defined.

(** X6 at a layer at half opacity blended [SrcOver]: the paint carries the
    alpha and the blend mode, and no image filter. *)
Lemma buildLayerPaint_effects_witness :
  layerPaint (buildLayerPaint (translucentView (restTransform tt)))
  = PaintSome (mkPaint (Some 0.5) (Some SrcOver) None)
  /\ alphaf (mkPaint (Some 0.5) (Some SrcOver) None) = Some 0.5
  /\ paintBlendMode (mkPaint (Some 0.5) (Some SrcOver) None) = Some SrcOver
  /\ imageFilter (mkPaint (Some 0.5) (Some SrcOver) None) = None.
Proof.
  split; [reflexivity|].
  exact (buildLayerPaint_effects (translucentView (restTransform tt))
           (mkStyle (Some (mkContextSettings 0.5 SrcOver)) None None)
           (mkPaint (Some 0.5) (Some SrcOver) None) eq_refl eq_refl).
Defined.

(** X8 at a translucent layer on a surface that rejects everything. *)
Lemma render_rejected_draws_nothing_witness :
  render (fun _ _ => tt) (fun _ _ => true) sameFrame (fun r => r)
    drawInOwnScope (translucentView (restTransform tt)) (freshCanvas tt)
  = (translucentView (restTransform tt), mkCanvas (mkGState tt []) [] 1 1).
Proof.
  exact (render_rejected_draws_nothing (fun _ _ => tt) (fun _ _ => true)
           sameFrame (fun r => r) drawInOwnScope
           (translucentView (restTransform tt)) (freshCanvas tt)
           eq_refl eq_refl).
Defined.


(** The five siblings, run: twelve acquisitions (five children, five
    drawing routines, two masks) and twelve releases. *)
Example renderChildren_call_counts :
  (let c := snd (renderChildren (fun _ _ => tt) (fun _ => tt) neverReject
                   sameFrame (fun r => r) drawInOwnScope clipOwnShape
                   (groupOf "group" (Rect.mk 0 0 10 10) true false
                      (maskedSiblings (restTransform tt)) (restTransform tt))
                   (freshCanvas tt)) in
   (saveCalls c, restoreCalls c) = (12, 12)%nat).
Proof. reflexivity. Qed.

(** X10 at the five masked siblings with a hidden sibling put after
    [plain1]: the surface comes out as without it. *)
Lemma renderChildren_skips_hidden_plain_child_witness :
  snd (renderChildren (fun _ _ => tt) (fun _ => tt) neverReject
         sameFrame (fun r => r) drawInOwnScope clipOwnShape
         (set_children
            (groupOf "group" (Rect.mk 0 0 10 10) true false []
               (restTransform tt))
            (firstn 2 (maskedSiblings (restTransform tt))
             ++ hiddenPlain (restTransform tt)
                :: skipn 2 (maskedSiblings (restTransform tt))))
         (freshCanvas tt))
  = snd (renderChildren (fun _ _ => tt) (fun _ => tt) neverReject
           sameFrame (fun r => r) drawInOwnScope clipOwnShape
           (set_children
              (groupOf "group" (Rect.mk 0 0 10 10) true false []
                 (restTransform tt))
              (firstn 2 (maskedSiblings (restTransform tt))
               ++ skipn 2 (maskedSiblings (restTransform tt))))
           (freshCanvas tt)).
Proof.
  exact (proj1 (renderChildren_skips_hidden_plain_child
                  (fun _ _ => tt) (fun _ => tt) neverReject sameFrame
                  (fun r => r) drawInOwnScope clipOwnShape
                  (groupOf "group" (Rect.mk 0 0 10 10) true false []
                     (restTransform tt))
                  (firstn 2 (maskedSiblings (restTransform tt)))
                  (skipn 2 (maskedSiblings (restTransform tt)))
                  (hiddenPlain (restTransform tt)) (freshCanvas tt)
                  eq_refl eq_refl eq_refl)).
Defined.

(** X13 at three stacked children whose last one is locked: the second
    one wins over the first; and under a parent that does not contain the
    point, nothing is found although the child contains it. *)
Lemma findView_last_drawn_sibling_wins_witness :
  (findView (fun m p => Point.minus p m) (Point.mk 15 15)
     (stackedScene (Point.mk 0 0) (Point.mk 10 10))
   = findView (fun m p => Point.minus p m) (Point.mk 15 15)
       (siblingView "b" (Rect.mk 10 10 20 20) false false
          (restTransform (Point.mk 10 10)))
   /\ exists r,
        findView (fun m p => Point.minus p m) (Point.mk 15 15)
          (siblingView "b" (Rect.mk 10 10 20 20) false false
             (restTransform (Point.mk 10 10))) = Some r)
  /\ (findView (fun m p => Point.minus p m) (Point.mk 25 25)
        (groupOf "small" (Rect.mk 0 0 10 10) true false
           [siblingView "far" (Rect.mk 20 20 10 10) false false
              (restTransform (Point.mk 20 20))]
           (restTransform (Point.mk 0 0)))
      = None
      /\ exists r,
           findView (fun m p => Point.minus p m) (Point.mk 25 25)
             (siblingView "far" (Rect.mk 20 20 10 10) false false
                (restTransform (Point.mk 20 20))) = Some r).
Proof.
  split.
  - apply (findView_last_drawn_sibling_wins (fun m p => Point.minus p m)
             (Point.mk 15 15) (stackedScene (Point.mk 0 0) (Point.mk 10 10))
             (siblingView "b" (Rect.mk 10 10 20 20) false false
                (restTransform (Point.mk 10 10)))
             [siblingView "a" (Rect.mk 10 10 20 20) false false
                (restTransform (Point.mk 10 10))]
             [mkLeaf (mkSibling "c" (Rect.mk 10 10 20 20) true true false false)
                (restTransform (Point.mk 10 10))]
             eq_refl eq_refl eq_refl).
    constructor; [left; reflexivity|constructor].
  - apply (findView_last_drawn_sibling_wins (fun m p => Point.minus p m)
             (Point.mk 25 25)
             (groupOf "small" (Rect.mk 0 0 10 10) true false
                [siblingView "far" (Rect.mk 20 20 10 10) false false
                   (restTransform (Point.mk 20 20))]
                (restTransform (Point.mk 0 0)))
             (siblingView "far" (Rect.mk 20 20 10 10) false false
                (restTransform (Point.mk 20 20)))
             [] [] eq_refl eq_refl eq_refl (Forall_nil _)).
Defined.

(** X14 at a view of width 0. *)
Lemma containsPoint_needs_positive_size_witness :
  (0 <? Rect.width
          (frame (siblingView "flat" (Rect.mk 0 0 0 10) false false
                    (restTransform (Point.mk 0 0))))) = false
  /\ containsPoint (fun m p => Point.minus p m)
       (siblingView "flat" (Rect.mk 0 0 0 10) false false
          (restTransform (Point.mk 0 0)))
       (Point.mk 0 5) = false
  /\ findView (fun m p => Point.minus p m) (Point.mk 0 5)
       (siblingView "flat" (Rect.mk 0 0 0 10) false false
          (restTransform (Point.mk 0 0))) = None.
Proof.
  split; [reflexivity|].
  exact (containsPoint_needs_positive_size (fun m p => Point.minus p m)
           (siblingView "flat" (Rect.mk 0 0 0 10) false false
              (restTransform (Point.mk 0 0)))
           (Point.mk 0 5) (or_introl eq_refl)).
Defined.

Lemma groupLayoutSelf_is_commonLayoutSelf {Matrix : Type}
    (p : option (SkyBaseLayerView (Matrix := Matrix)))
    (v : SkyBaseLayerView) :
  commonLayoutSelf p v = Some (groupLayoutSelf p v).
Proof.
  unfold groupLayoutSelf.
  destruct (commonLayoutSelf_total p v) as [v1 ->]. reflexivity.
Qed.

(** X15 at a fresh group with two children, one of them hidden. *)
Lemma layout_cleans_every_node_witness :
  (forall (p : option (SkyBaseLayerView (Matrix := unit))) v,
     model (groupLayoutSelf p v) = model v)
  /\ Forall (fun n => isClean n = true)
       (layoutNodes
          (layout (fun d => d) (fun t => t) (fun t _ => t) (restTransform tt)
             groupLayoutSelf None (freshTree (restTransform tt))))
  /\ map (fun n => model (own n))
       (layoutNodes
          (layout (fun d => d) (fun t => t) (fun t _ => t) (restTransform tt)
             groupLayoutSelf None (freshTree (restTransform tt))))
     = map (fun n => model (own n)) (layoutNodes (freshTree (restTransform tt))).
Proof.
  assert (H : forall (p : option (SkyBaseLayerView (Matrix := unit))) v,
             model (groupLayoutSelf p v) = model v).
  { intros p v. pose proof (groupLayoutSelf_is_commonLayoutSelf p v) as Hc.
    unfold commonLayoutSelf in Hc.
    destruct (calcInstanceChildScale p (set_scaledFrame v None));
      [destruct (calcOffsetAfterScale p _ _ _); [|discriminate]|];
      injection Hc as <-; reflexivity. }
  split; [exact H|].
  destruct (layout_cleans_every_node (fun d => d) (fun t => t) (fun t _ => t)
              (restTransform tt) groupLayoutSelf None
              (freshTree (restTransform tt)))
    as (Hclean & _ & Hmodels).
  split; [exact Hclean|exact (Hmodels H)].
Defined.

(** X17 at the same tree: the stale scaled frame of the hidden child is
    gone after the pass. *)
Lemma layout_below_unscaled_parent_clears_overrides_witness :
  (forall (p : option (SkyBaseLayerView (Matrix := unit))) v,
     commonLayoutSelf p v = Some (groupLayoutSelf p v))
  /\ Forall (fun n => _layoutDirty n = true /\ hasNumericSize n = true)
       (layoutNodes (freshTree (restTransform tt)))
  /\ Forall (fun n => scaledFrame (own n) = None
                      /\ isFrameScaled (own n) = false)
       (layoutNodes
          (layout (fun d => d) (fun t => t) (fun t _ => t) (restTransform tt)
             groupLayoutSelf None (freshTree (restTransform tt)))).
Proof.
  assert (Hfresh : Forall (fun n : LayoutView (Matrix := unit) =>
                             _layoutDirty n = true /\ hasNumericSize n = true)
                     (layoutNodes (freshTree (restTransform tt))))
    by (repeat (constructor; [split; reflexivity|]); constructor).
  split; [exact groupLayoutSelf_is_commonLayoutSelf|].
  split; [exact Hfresh|].
  exact (layout_below_unscaled_parent_clears_overrides (fun d => d)
           (fun t => t) (fun t _ => t) (restTransform tt) groupLayoutSelf
           None (freshTree (restTransform tt))
           groupLayoutSelf_is_commonLayoutSelf I Hfresh).
Defined.

(** X18 at a view that must not be rejected, on a surface that would reject
    it and on one that would not. *)
Lemma render_ignores_quickReject_when_disabled_witness :
  render (fun _ _ => tt) (fun _ _ => true) sameFrame (fun r => r)
    drawInOwnScope
    (mkView (mkSibling "mask" (Rect.mk 0 0 10 10) true false true false) []
       (restTransform tt) None PaintUndefined false false)
    (freshCanvas tt)
  = render (fun _ _ => tt) (fun _ _ => false) sameFrame (fun r => r)
      drawInOwnScope
      (mkView (mkSibling "mask" (Rect.mk 0 0 10 10) true false true false) []
         (restTransform tt) None PaintUndefined false false)
      (freshCanvas tt).
Proof.
  exact (render_ignores_quickReject_when_disabled (fun _ _ => tt)
           (fun _ _ => true) (fun _ _ => false) sameFrame (fun r => r)
           drawInOwnScope
           (mkView (mkSibling "mask" (Rect.mk 0 0 10 10) true false true false)
              [] (restTransform tt) None PaintUndefined false false)
           (freshCanvas tt) eq_refl).
Defined.

(** X19 at a pixel-mode wheel step of 35: it is clamped to 20. *)
Lemma getScaleDelta_clamps_witness :
  (ZoomController.deltaMode
     (ZoomController.mkWheelEvent 0 0 35 0 0 true false false) =? 1)%Z = false
  /\ (20 <=? 35) = true
  /\ ZoomController.getScaleDelta
       (ZoomController.mkWheelEvent 0 0 35 0 0 true false false) = 20.
Proof.
  split; [reflexivity|]. split; [reflexivity|].
  exact (proj1 (proj2 (proj2 (ZoomControllerFacts.getScaleDelta_clamps
                                (ZoomController.mkWheelEvent 0 0 35 0 0 true
                                   false false) eq_refl))) eq_refl).
Defined.


(** The pinch above, run: ratios of consecutive scales, 1.5 then 2. *)
Example runGesture_example :
  snd (ZoomController.runGesture (Point.mk 10 5) (Point.mk 0 0, 1)
         [ZoomController.gesturestart 30 40; ZoomController.gesturechange 1.5;
          ZoomController.gesturechange 3; ZoomController.gestureend])
  = [ZoomController.onScale 1.5 (Point.mk 20 35);
     ZoomController.onScale 2 (Point.mk 20 35)].
Proof. reflexivity. Qed.

(** A drag of three steps, run: each call is the previous distance minus
    the current one. *)
Example runDrag_example :
  snd (ZoomController.runDrag (0, 0)
         [ZoomController.dragStart; ZoomController.dragging 3 4;
          ZoomController.dragging 10 6; ZoomController.dragEnd])
  = [ZoomController.onOffset (Point.mk (-3) (-4));
     ZoomController.onOffset (Point.mk (-7) (-2))].
Proof. reflexivity. Qed.

(** X23 at a hidden mask followed by a plain sibling, with masks that
    intersect their own shape into the clip: the sibling is entered after
    one [save] and no [restore], under the mask's shape, and the whole loop
    makes three acquisitions and three releases (the mask scope, the
    sibling's [render] and its drawing routine). *)
Lemma hidden_mask_still_clips_witness :
  renderEntry (fun _ _ => tt) (fun _ => tt) neverReject sameFrame
    (fun r => r) drawInOwnScope clipOwnShape
    ([] ++ [hiddenMask (restTransform tt)])
    (siblingView "plain" (Rect.mk 0 0 10 10) false false (restTransform tt))
    (freshCanvas tt)
  = mkCanvas (mkGState tt ["hiddenMask"%string])
      [(ScopeSave, mkGState tt [])] 1 0
  /\ snd (renderChildren (fun _ _ => tt) (fun _ => tt) neverReject sameFrame
            (fun r => r) drawInOwnScope clipOwnShape
            (groupOf "group" (Rect.mk 0 0 10 10) true false
               [hiddenMask (restTransform tt);
                siblingView "plain" (Rect.mk 0 0 10 10) false false
                  (restTransform tt)]
               (restTransform tt))
            (freshCanvas tt))
     = mkCanvas (mkGState tt []) [] 3 3.
Proof.
  destruct (hidden_mask_still_clips (fun _ _ => tt) (fun _ => tt)
              neverReject sameFrame (fun r => r) drawInOwnScope clipOwnShape
              (groupOf "group" (Rect.mk 0 0 10 10) true false
                 [hiddenMask (restTransform tt);
                  siblingView "plain" (Rect.mk 0 0 10 10) false false
                    (restTransform tt)]
                 (restTransform tt))
              []
              (hiddenMask (restTransform tt))
              (siblingView "plain" (Rect.mk 0 0 10 10) false false
                 (restTransform tt))
              (freshCanvas tt) eq_refl eq_refl eq_refl eq_refl)
    as (_ & Hentry & Hloop).
  split; [exact Hentry|].
  exact (f_equal snd (Hloop eq_refl eq_refl eq_refl)).
Defined.
